(** * gdscript-docs-maker: the model builder and the document renderer

    A shallow embedding of [gdscript_objects.py] (raw JSON records to typed
    objects) and of [convert_to_markdown.py] (typed objects to lines of
    markdown), with the properties of both that the specification states. *)

From Stdlib Require Import String Ascii List Bool ZArith Lia DecimalString.
Import ListNotations.
Open Scope string_scope.
Open Scope list_scope.

(** ** Python strings

    A [string] is a sequence of characters; a character is the code point of
    the same number, so the model covers the strings over U+0000..U+00FF.
    Each function below is the [str] method of the same name, restricted to
    the way the two modules call it. *)

Module PyStr.

Definition code (c : ascii) : nat := nat_of_ascii c.

(** [str.isspace] on one character: TAB..CR, FS..US, SPACE, NEL, NBSP. *)
Definition isspace (c : ascii) : bool :=
  let n := code c in
  (((9 <=? n) && (n <=? 13)) || ((28 <=? n) && (n <=? 32))
   || (n =? 133) || (n =? 160))%nat.

(** [str.lower] on one character: A..Z, and U+00C0..U+00DE but the
    multiplication sign U+00D7, move up by 32. *)
Definition lower_char (c : ascii) : ascii :=
  let n := code c in
  if (((65 <=? n) && (n <=? 90))
      || ((192 <=? n) && (n <=? 222) && negb (n =? 215)))%nat
  then ascii_of_nat (n + 32) else c.

Fixpoint lower (s : string) : string :=
  match s with
  | EmptyString => EmptyString
  | String c s' => String (lower_char c) (lower s')
  end.

(** [s.lstrip(chars)], [s.rstrip(chars)], [s.strip(chars)], the set of
    characters given by its membership test. *)
Fixpoint lstrip_with (p : ascii -> bool) (s : string) : string :=
  match s with
  | EmptyString => EmptyString
  | String c s' => if p c then lstrip_with p s' else s
  end.

Fixpoint rstrip_with (p : ascii -> bool) (s : string) : string :=
  match s with
  | EmptyString => EmptyString
  | String c s' =>
      match rstrip_with p s' with
      | EmptyString => if p c then EmptyString else String c EmptyString
      | r => String c r
      end
  end.

Definition strip_with (p : ascii -> bool) (s : string) : string :=
  rstrip_with p (lstrip_with p s).

(** [s.strip()] *)
Definition strip (s : string) : string := strip_with isspace s.

(** [s.strip(" \n")] *)
Definition space_or_newline (c : ascii) : bool :=
  ((code c =? 32) || (code c =? 10))%nat.
Definition strip_space_newline (s : string) : string :=
  strip_with space_or_newline s.

(** [s.startswith(p)] *)
Definition startswith (s p : string) : bool := prefix p s.

(** [s.find(sub)]: the least index at which [sub] occurs, or -1. *)
Fixpoint find_from (sub s : string) (i : Z) : Z :=
  if prefix sub s then i
  else match s with
       | EmptyString => (-1)%Z
       | String _ s' => find_from sub s' (i + 1)%Z
       end.
Definition find (s sub : string) : Z := find_from sub s 0.

Fixpoint drop (n : nat) (s : string) : string :=
  match n, s with
  | O, _ => s
  | S n', String _ s' => drop n' s'
  | S _, EmptyString => EmptyString
  end.

(** The slice [s[i:]]; a negative [i] counts from the end. *)
Definition slice_from (s : string) (i : Z) : string :=
  if (0 <=? i)%Z then drop (Z.to_nat i) s
  else drop (Z.to_nat (Z.max 0 (Z.of_nat (String.length s) + i))) s.

(** [s.split(sep)] for a separator of one character. *)
Fixpoint split (s : string) (sep : ascii) : list string :=
  match s with
  | EmptyString => [EmptyString]
  | String c s' =>
      if Ascii.eqb c sep then EmptyString :: split s' sep
      else match split s' sep with
           | h :: t => String c h :: t
           | [] => [String c EmptyString]
           end
  end.

(** [sep.join(parts)] *)
Definition join (sep : string) (parts : list string) : string :=
  String.concat sep parts.

(** [s.replace(old, new, 1)]: the leftmost occurrence only. *)
Fixpoint replace1 (s old new : string) : string :=
  if prefix old s then (new ++ drop (String.length old) s)%string
  else match s with
       | EmptyString => EmptyString
       | String c s' => String c (replace1 s' old new)
       end.

(** [x in xs] for a list of strings. *)
Definition contains (xs : list string) (x : string) : bool :=
  existsb (String.eqb x) xs.

Definition newline : ascii := ascii_of_nat 10.
Definition comma : ascii := ascii_of_nat 44.
Definition nl : string := String newline EmptyString.

End PyStr.

(** ** Raw records: JSON values

    The input is what [json.load] returns.  A [dict] keeps its insertion
    order and is read by key only, so it is an association list read by first
    match.  Numbers are integers: neither module computes with a number. *)

#[warnings="-register-all"]
Inductive value : Type :=
| VNull
| VBool (b : bool)
| VInt (n : Z)
| VStr (s : string)
| VList (l : list value)
| VDict (d : list (string * value)).

(** The two ways a build or a rendering stops: [KeyError key] is the
    exception of [entry[key]] on a dict without [key]; [TypeError] stands for
    every exception of an operation applied to a value of the wrong type
    (Python's [TypeError] and [AttributeError]). *)
Inductive error : Type :=
| KeyError (key : string)
| TypeError.

Inductive result (A : Type) : Type :=
| Ok (a : A)
| Err (e : error).
Arguments Ok {A} a.
Arguments Err {A} e.

Definition bind {A B : Type} (r : result A) (k : A -> result B) : result B :=
  match r with
  | Ok a => k a
  | Err e => Err e
  end.

Notation "'let*' x ':=' r 'in' k" := (bind r (fun x => k))
  (at level 10, x pattern, r at level 100, k at level 200).

(** [[f(x) for x in xs]] where [f] may raise: the first exception wins. *)
Fixpoint mapM {A B : Type} (f : A -> result B) (xs : list A) : result (list B) :=
  match xs with
  | [] => Ok []
  | x :: xs' =>
      let* y := f x in
      let* ys := mapM f xs' in
      Ok (y :: ys)
  end.

(** A [for] loop whose body either appends one object or [continue]s. *)
Fixpoint for_each {A B : Type} (body : A -> result (option B)) (xs : list A)
  : result (list B) :=
  match xs with
  | [] => Ok []
  | x :: xs' =>
      let* o := body x in
      let* ys := for_each body xs' in
      Ok (match o with Some y => y :: ys | None => ys end)
  end.

Fixpoint lookup (key : string) (d : list (string * value)) : option value :=
  match d with
  | [] => None
  | (k, v) :: d' => if String.eqb k key then Some v else lookup key d'
  end.

(** [entry[key]] *)
Definition getitem (entry : value) (key : string) : result value :=
  match entry with
  | VDict d =>
      match lookup key d with
      | Some v => Ok v
      | None => Err (KeyError key)
      end
  | _ => Err TypeError
  end.

(** [key in entry]: the key of a dict, an element of a list, a substring of
    a string; [None], a bool and a number cannot be searched. *)
Definition has_key (entry : value) (key : string) : result bool :=
  match entry with
  | VDict d => Ok (match lookup key d with Some _ => true | None => false end)
  | VList l =>
      Ok (existsb (fun v => match v with
                            | VStr s => String.eqb s key
                            | _ => false
                            end) l)
  | VStr s => Ok (negb (PyStr.find s key =? -1)%Z)
  | _ => Err TypeError
  end.

(** Truth value of an object: [None], [False], 0 and the empty string, list
    and dict are false. *)
Definition truthy (v : value) : bool :=
  match v with
  | VNull => false
  | VBool b => b
  | VInt n => negb (n =? 0)%Z
  | VStr s => negb (s =? "")%string
  | VList l => match l with [] => false | _ => true end
  | VDict d => match d with [] => false | _ => true end
  end.

Fixpoint chars (s : string) : list string :=
  match s with
  | EmptyString => []
  | String c s' => String c EmptyString :: chars s'
  end.

(** [for entry in data]: a list gives its elements, a dict its keys, a
    string its characters; nothing else is iterable. *)
Definition iterate (data : value) : result (list value) :=
  match data with
  | VList l => Ok l
  | VDict d => Ok (map (fun kv => VStr (fst kv)) d)
  | VStr s => Ok (map VStr (chars s))
  | _ => Err TypeError
  end.

(** A value that must be a string.  Where the source applies a method of
    [str] to the value it has just read ([get_metadata] on a description,
    [startswith] on a name, [replace] on a signature or return type, [join]
    on the parent chain), this is the check of Python itself.  The fields
    of a Member, of an Enumeration and of the class that the renderer passes
    on as [str] (signature, type, setter, getter; signature, name,
    description; name, path) are read with the same check, while the source
    stores them unchecked: for these the records of the model are the
    records whose values have the annotated type, and a [TypeError] of the
    model marks a record outside them.  A build that is [Ok] or a
    [KeyError] in the model has read strings only up to that point, and
    then the source does the same. *)
Definition as_str (v : value) : result string :=
  match v with
  | VStr s => Ok s
  | _ => Err TypeError
  end.

Definition get_str (entry : value) (key : string) : result string :=
  let* v := getitem entry key in as_str v.

(** *** str and repr of a value

    ["{}".format(v)] is [str(v)]: a string is itself; every other value is
    printed as [repr] prints it, a string inside a list or a dict between
    quotes and with its escapes. *)

Definition single_quote : ascii := ascii_of_nat 39.
Definition double_quote : ascii := ascii_of_nat 34.
Definition backslash : ascii := ascii_of_nat 92.

Definition hex_digit (n : nat) : ascii :=
  nth n [ "0"; "1"; "2"; "3"; "4"; "5"; "6"; "7"; "8"; "9";
          "a"; "b"; "c"; "d"; "e"; "f" ]%char "0"%char.

(** [str.isprintable] on one character: the ASCII characters from the space
    to the tilde, and U+00A1..U+00FF but the soft hyphen U+00AD. *)
Definition isprintable (c : ascii) : bool :=
  let n := PyStr.code c in
  (((32 <=? n) && (n <=? 126)) || ((161 <=? n) && negb (n =? 173)))%nat.

Fixpoint occurs (c : ascii) (s : string) : bool :=
  match s with
  | EmptyString => false
  | String c' s' => Ascii.eqb c' c || occurs c s'
  end.

Definition repr_char (q : ascii) (c : ascii) : string :=
  let n := PyStr.code c in
  if Ascii.eqb c q || Ascii.eqb c backslash
  then String backslash (String c EmptyString)
  else if (n =? 9)%nat then String backslash "t"
  else if (n =? 10)%nat then String backslash "n"
  else if (n =? 13)%nat then String backslash "r"
  else if isprintable c then String c EmptyString
  else String backslash
         (String "x" (String (hex_digit (n / 16))
                        (String (hex_digit (n mod 16)) EmptyString))).

Fixpoint repr_chars (q : ascii) (s : string) : string :=
  match s with
  | EmptyString => EmptyString
  | String c s' => (repr_char q c ++ repr_chars q s')%string
  end.

(** [repr(s)]: between double quotes when [s] holds a quote and no double
    quote, between quotes otherwise. *)
Definition repr_str (s : string) : string :=
  let q := if occurs single_quote s && negb (occurs double_quote s)
           then double_quote else single_quote in
  String q (repr_chars q s ++ String q EmptyString).

Fixpoint py_repr (v : value) : string :=
  match v with
  | VNull => "None"
  | VBool b => if b then "True" else "False"
  | VInt n => NilZero.string_of_int (Z.to_int n)
  | VStr s => repr_str s
  | VList l => ("[" ++ String.concat ", " (map py_repr l) ++ "]")%string
  | VDict d =>
      ("{"
       ++ String.concat ", "
            (map (fun kv => (repr_str (fst kv) ++ ": " ++ py_repr (snd kv))%string)
                 d)
       ++ "}")%string
  end.

Definition py_str (v : value) : string :=
  match v with
  | VStr s => s
  | _ => py_repr v
  end.

(** ** gdscript_objects.py: the typed model *)

Definition BUILTIN_VIRTUAL_CALLBACKS : list string :=
  [ "_process";
    "_physics_process";
    "_input";
    "_unhandled_input";
    "_gui_input";
    "_draw";
    "_get_configuration_warning";
    "_ready";
    "_enter_tree";
    "_exit_tree";
    "_get";
    "_get_property_list";
    "_notification";
    "_set";
    "_to_string";
    "_clips_input";
    "_get_minimum_size";
    "_gui_input";
    "_make_custom_tooltip" ].

Definition TYPE_CONSTRUCTOR : string := "_init".

(** [Argument] and [Signal] are built from the values of the entry as they
    are, and nothing of them but the signature of a signal is used again:
    their fields hold raw values. *)
Module Argument.
Record t : Type := mk { name : value; type : value }.
End Argument.

Module Signal.
Record t : Type := mk {
  signature : value;
  name : value;
  description : value;
  arguments : value
}.
End Signal.

Inductive FunctionTypes : Type := METHOD | VIRTUAL | STATIC.

Module Function.
Record t : Type := mk {
  signature : string;
  kind : FunctionTypes;
  name : string;
  description : string;
  return_type : string;
  arguments : list Argument.t;
  rpc_mode : value;
  tags : list string
}.

Definition summarize (self : t) : list string :=
  [return_type self; signature self].
End Function.

Module Enumeration.
Record t : Type := mk {
  signature : string;
  name : string;
  description : string;
  values : value
}.

Definition from_dict (data : value) : result t :=
  let* signature := get_str data "signature" in
  let* name := get_str data "name" in
  let* description := get_str data "description" in
  let* values := getitem data "value" in
  Ok (mk signature name description values).
End Enumeration.

Module Member.
Record t : Type := mk {
  signature : string;
  name : string;
  description : string;
  type : string;
  default_value : value;
  is_exported : value;
  setter : string;
  getter : string;
  tags : list string
}.

Definition summarize (self : t) : list string := [type self; name self].
End Member.

(** *** get_metadata

    The loop carries [tags], [category] and [description_trimmed]. *)

(** [line[line.find(":") + 1 :]] *)
Definition after_colon (line : string) : string :=
  PyStr.slice_from line (PyStr.find line ":" + 1).

Definition line_stripped (line : string) : string :=
  PyStr.lower (PyStr.strip line).

Definition is_tags_line (line : string) : bool :=
  PyStr.startswith (line_stripped line) "tags:".

Definition is_category_line (line : string) : bool :=
  PyStr.startswith (line_stripped line) "category:".

Definition metadata_state : Type := (list string * string * list string)%type.

Definition get_metadata_step (st : metadata_state) (line : string)
  : metadata_state :=
  let '(tags, category, description_trimmed) := st in
  if is_tags_line line then
    (map PyStr.strip (PyStr.split (after_colon line) PyStr.comma),
     category, description_trimmed)
  else if is_category_line line then
    (tags, PyStr.strip (after_colon line), description_trimmed)
  else
    (tags, category, description_trimmed ++ [line]).

Definition get_metadata (description : string)
  : string * list string * string :=
  let lines := PyStr.split description PyStr.newline in
  let '(tags, category, description_trimmed) :=
    fold_left get_metadata_step lines ([], "", []) in
  (PyStr.join PyStr.nl description_trimmed, tags, category).

(** *** The converters of the nested entries *)

Definition _get_signals (data : value) : result (list Signal.t) :=
  let* entries := iterate data in
  mapM (fun entry =>
          let* signature := getitem entry "signature" in
          let* name := getitem entry "name" in
          let* description := getitem entry "description" in
          let* arguments := getitem entry "arguments" in
          Ok (Signal.mk signature name description arguments))
       entries.

Definition _get_arguments (data : value) : result (list Argument.t) :=
  let* entries := iterate data in
  mapM (fun entry =>
          let* name := getitem entry "name" in
          let* type := getitem entry "type" in
          Ok (Argument.mk name type))
       entries.

(** The body of the loop of [_get_functions]: [None] is [continue]. *)
Definition _get_functions_body (is_static : bool) (entry : value)
  : result (option Function.t) :=
  let* name := get_str entry "name" in
  if PyStr.contains BUILTIN_VIRTUAL_CALLBACKS name then Ok None else
  let* no_arguments :=
    (if (name =? TYPE_CONSTRUCTOR)%string
     then let* a := getitem entry "arguments" in Ok (negb (truthy a))
     else Ok false) in
  if no_arguments then Ok None else
  let* raw_description := get_str entry "description" in
  let '(description, tags, _) := get_metadata raw_description in
  let is_virtual := PyStr.contains tags "virtual" && negb is_static in
  let is_private := PyStr.startswith name "_" && negb is_virtual in
  if is_private then Ok None else
  let kind :=
    if is_static then STATIC else if is_virtual then VIRTUAL else METHOD in
  let* signature := get_str entry "signature" in
  let* return_type := get_str entry "return_type" in
  let* raw_arguments := getitem entry "arguments" in
  let* arguments := _get_arguments raw_arguments in
  let* has_rpc_mode := has_key entry "rpc_mode" in
  let* rpc_mode :=
    (if has_rpc_mode then getitem entry "rpc_mode" else Ok (VInt 0)) in
  Ok (Some (Function.mk
              (PyStr.replace1 signature "-> null" "-> void")
              kind
              name
              (PyStr.strip_space_newline description)
              (PyStr.replace1 return_type "null" "void")
              arguments
              rpc_mode
              tags)).

Definition _get_functions (data : value) (is_static : bool)
  : result (list Function.t) :=
  let* entries := iterate data in
  for_each (_get_functions_body is_static) entries.

(** The body of the loop of [_get_members]. *)
Definition _get_members_body (entry : value) : result (option Member.t) :=
  let* name := get_str entry "name" in
  if PyStr.startswith name "_" then Ok None else
  let* raw_description := get_str entry "description" in
  let '(description, tags, _) := get_metadata raw_description in
  let* signature := get_str entry "signature" in
  let* name := get_str entry "name" in
  let* type := get_str entry "data_type" in
  let* default_value := getitem entry "default_value" in
  let* is_exported := getitem entry "export" in
  let* setter := get_str entry "setter" in
  let* getter := get_str entry "getter" in
  Ok (Some (Member.mk signature name
              (PyStr.strip_space_newline description)
              type default_value is_exported setter getter tags)).

Definition _get_members (data : value) : result (list Member.t) :=
  let* entries := iterate data in
  for_each _get_members_body entries.

(** [entry["data_type"] == "Dictionary"] *)
Definition is_dictionary_constant (entry : value) : result bool :=
  let* data_type := getitem entry "data_type" in
  Ok (match data_type with
      | VStr s => (s =? "Dictionary")%string
      | _ => false
      end).

(** The list comprehension over [data["constants"]] in [from_dict]. *)
Definition enums_of_constants (data : value) : result (list Enumeration.t) :=
  let* entries := iterate data in
  for_each (fun entry =>
              let* keep := is_dictionary_constant entry in
              if keep
              then let* e := Enumeration.from_dict entry in Ok (Some e)
              else Ok None)
           entries.

Module GDScriptClass.
(** [extends] is annotated [str] and holds the parent chain, which
    [extends_as_string] joins: it is kept as the raw value and checked
    there. *)
Record t : Type := mk {
  name : string;
  extends : value;
  description : string;
  path : string;
  functions : list Function.t;
  members : list Member.t;
  signals : list Signal.t;
  enums : list Enumeration.t;
  tags : list string;
  category : string
}.

Definition from_dict (data : value) : result t :=
  let* raw_description := get_str data "description" in
  let '(description, tags, category) := get_metadata raw_description in
  let* name := get_str data "name" in
  let* extends := getitem data "extends_class" in
  let* path := get_str data "path" in
  let* methods := getitem data "methods" in
  let* functions := _get_functions methods false in
  let* static_functions := getitem data "static_functions" in
  let* statics := _get_functions static_functions true in
  let* raw_members := getitem data "members" in
  let* members := _get_members raw_members in
  let* raw_signals := getitem data "signals" in
  let* signals := _get_signals raw_signals in
  let* constants := getitem data "constants" in
  let* enums := enums_of_constants constants in
  Ok (mk name extends (PyStr.strip_space_newline description) path
         (functions ++ statics) members signals enums tags category).

Definition extends_as_string (self : t) : result string :=
  let* parts := iterate (extends self) in
  let* names := mapM as_str parts in
  Ok (PyStr.join " < " names).

(** The keys of [self.__dict__]: the fields of the dataclass. *)
Definition __dict__ : list string :=
  [ "name"; "extends"; "description"; "path"; "functions"; "members";
    "signals"; "enums"; "tags"; "category" ].

(** [operator.attrgetter(attribute)] for the attributes that hold a string;
    the values of the others are not compared in this model. *)
Definition attrgetter (attribute : string) (self : t) : option string :=
  if (attribute =? "name")%string then Some (name self)
  else if (attribute =? "description")%string then Some (description self)
  else if (attribute =? "path")%string then Some (path self)
  else if (attribute =? "category")%string then Some (category self)
  else None.
End GDScriptClass.

Module GDScriptClasses.

Definition t : Type := list GDScriptClass.t.
Definition getter : Type := GDScriptClass.t -> option string.

(** A positional argument of a call of [sorted]. *)
Inductive positional : Type :=
| Iterable (l : t)
| Callable (f : getter).

Fixpoint insert_by (key : GDScriptClass.t -> string) (x : GDScriptClass.t)
  (l : t) : t :=
  match l with
  | [] => [x]
  | y :: l' =>
      if (key x <=? key y)%string then x :: l else y :: insert_by key x l'
  end.

Definition sort_by (key : GDScriptClass.t -> string) (l : t) : t :=
  fold_right (insert_by key) [] l.

Definition key_or_empty (f : getter) (c : GDScriptClass.t) : string :=
  match f c with Some s => s | None => "" end.

Definition comparable (f : getter) (l : t) : bool :=
  forallb (fun c => match f c with Some _ => true | None => false end) l.

(** Python 3's builtin [sorted(iterable, /, *, key=None, reverse=False)]:
    one positional argument; [key] is keyword-only.  A call with another
    number of positional arguments raises [TypeError] ("sorted expected 1
    argument, got 2") before anything is sorted.  With the one argument and
    a key the sort is stable; instances of a dataclass declared without
    [order=True] cannot be compared with each other. *)
Definition sorted (args : list positional) (key : option getter) : result t :=
  match args with
  | [Iterable l] =>
      match key with
      | Some f =>
          if comparable f l then Ok (sort_by (key_or_empty f) l)
          else Err TypeError
      | None => match l with _ :: _ :: _ => Err TypeError | _ => Ok l end
      end
  | _ => Err TypeError
  end.

(** [itertools.groupby(data, key)]: the runs of consecutive elements with
    equal keys. *)
Fixpoint groupby (data : t) (key : getter) : list t :=
  match data with
  | [] => []
  | x :: rest =>
      match groupby rest key with
      | (y :: g) :: groups =>
          if match key x, key y with
             | Some a, Some b => (a =? b)%string
             | None, None => true
             | _, _ => false
             end
          then (x :: y :: g) :: groups
          else [x] :: (y :: g) :: groups
      | _ => [[x]]
      end
  end.

Definition _get_grouped_by (self : t) (attribute : string) : result (list t) :=
  match self with
  | [] => Ok []
  | _ :: _ =>
      if negb (PyStr.contains GDScriptClass.__dict__ attribute) then Ok []
      else
        let get_attribute := GDScriptClass.attrgetter attribute in
        let* data := sorted [Iterable self; Callable get_attribute] None in
        Ok (groupby data get_attribute)
  end.

Definition get_grouped_by_category (self : t) : result (list t) :=
  _get_grouped_by self "category".

Definition from_dict_list (data : list value) : result t :=
  for_each (fun entry =>
              let* named := has_key entry "name" in
              if named
              then let* c := GDScriptClass.from_dict entry in Ok (Some c)
              else Ok None)
           data.

End GDScriptClasses.

(** ** convert_to_markdown.py: the renderer

    [make_markdown.py], [hugo.py] and [command_line.py] are not among the
    sources.  The formatting functions the renderer imports from the first
    two are the members of two interfaces; every statement about the
    renderer holds for all their implementations. *)

(** Modelled from the spec: [command_line.OutputFormats], which is not among
    the sources.  The renderer names two members, the plain dialect
    [MARDKOWN] and the augmented dialect [HUGO].  [arguments.format] is an
    attribute of an [argparse.Namespace], which may hold any object: every
    other one is [OTHER]. *)
Inductive OutputFormats : Type :=
| MARDKOWN
| HUGO
| OTHER (v : value).

(** [output_format == OutputFormats.HUGO] and
    [output_format == OutputFormats.MARDKOWN] *)
Definition is_HUGO (output_format : OutputFormats) : bool :=
  match output_format with HUGO => true | _ => false end.
Definition is_MARDKOWN (output_format : OutputFormats) : bool :=
  match output_format with MARDKOWN => true | _ => false end.

(** The command line options: the renderer reads [format]; the rest is for
    the front matter. *)
Record Namespace : Type := mkNamespace {
  format : OutputFormats;
  settings : list (string * value)
}.

(** Modelled from the spec: a document is "identified by its class name and
    carrying an ordered sequence of text lines". *)
Record MarkdownDocument : Type := mkMarkdownDocument {
  title : string;
  content : list string
}.

Class make_markdown : Type := {
  make_bold : string -> string;
  make_code_block : string -> string;
  make_heading : string -> nat -> list string;
  surround_with_html : string -> string -> string;
  make_table_row : list string -> string;
  make_table_header : list string -> list string;
  wrap_in_newlines : list string -> list string;
  make_comment : string -> string
}.

(** [highlight_code] is [hugo.highlight_code]; [front_matter gdscript
    arguments] is [HugoFrontMatter.from_data(gdscript,
    arguments).as_string_list()]. *)
Class hugo : Type := {
  highlight_code : string -> string;
  front_matter : GDScriptClass.t -> Namespace -> list string
}.

Module MarkdownSection.
(** Modelled from the spec: [MarkdownSection(title, heading_level,
    content).as_text()] of make_markdown.py: "each a titled section that is
    entirely omitted when its content list is empty"; otherwise the heading,
    then the content. *)
Definition as_text `{make_markdown} (title : string) (heading_level : nat)
  (content : list string) : list string :=
  match content with
  | [] => []
  | _ :: _ => make_heading title heading_level ++ content
  end.
End MarkdownSection.

Section Renderer.
Context {MM : make_markdown} {HG : hugo}.

(** Truth value of a string. *)
Definition nonempty (s : string) : bool := negb (s =? "")%string.

Definition summarize_members (gdscript : GDScriptClass.t) : list string :=
  match GDScriptClass.members gdscript with
  | [] => []
  | members =>
      let header := make_table_header ["Type"; "Name"] in
      header ++ map (fun member => make_table_row (Member.summarize member))
                    members
  end.

Definition summarize_methods (gdscript : GDScriptClass.t) : list string :=
  let header := make_table_header ["Type"; "Name"] in
  header ++ map (fun function => make_table_row (Function.summarize function))
                (GDScriptClass.functions gdscript).

Definition write_signals (signals : list Signal.t) : list string :=
  match signals with
  | [] => []
  | _ :: _ =>
      wrap_in_newlines
        (map (fun s => ("- " ++ py_str (Signal.signature s))%string) signals)
  end.

Definition code_of (output_format : OutputFormats) (signature : string)
  : string :=
  if is_HUGO output_format then highlight_code signature
  else make_code_block signature.

Definition write_enum (output_format : OutputFormats) (enum : Enumeration.t)
  : list string :=
  let markdown := [] in
  let markdown := markdown ++ make_heading (Enumeration.name enum) 3 in
  let markdown :=
    markdown ++ [code_of output_format (Enumeration.signature enum); ""] in
  let markdown := markdown ++ [Enumeration.description enum] in
  markdown.

Definition write_enums (enums : list Enumeration.t)
  (output_format : OutputFormats) : list string :=
  fold_left (fun markdown enum => markdown ++ write_enum output_format enum)
            enums [].

Definition write_member (output_format : OutputFormats) (member : Member.t)
  : list string :=
  let markdown := [] in
  let markdown := markdown ++ make_heading (Member.name member) 3 in
  let markdown :=
    markdown ++ [code_of output_format (Member.signature member); ""] in
  let markdown :=
    if nonempty (Member.setter member) || nonempty (Member.setter member)
    then
      let setget := [] in
      let setget :=
        if nonempty (Member.setter member)
        then setget ++ [make_table_row ["Setter"; Member.setter member]]
        else setget in
      let setget :=
        if nonempty (Member.getter member)
        then setget ++ [make_table_row ["Getter"; Member.getter member]]
        else setget in
      let setget := setget ++ [""] in
      markdown ++ setget
    else markdown in
  let markdown := markdown ++ [Member.description member] in
  markdown.

Definition write_members (members : list Member.t)
  (output_format : OutputFormats) : list string :=
  fold_left (fun markdown member => markdown ++ write_member output_format member)
            members [].

Definition write_function (output_format : OutputFormats)
  (function : Function.t) : list string :=
  let markdown := [] in
  let heading := Function.name function in
  let heading :=
    match Function.kind function with
    | VIRTUAL => (heading ++ " " ++ surround_with_html "(virtual)" "small")%string
    | _ => heading
    end in
  let heading :=
    match Function.kind function with
    | STATIC => (heading ++ " " ++ surround_with_html "(static)" "small")%string
    | _ => heading
    end in
  let markdown := markdown ++ make_heading heading 3 in
  let markdown :=
    markdown ++ [code_of output_format (Function.signature function); ""] in
  let markdown :=
    if nonempty (Function.description function)
    then markdown ++ [""; Function.description function]
    else markdown in
  markdown.

Definition write_functions (functions : list Function.t)
  (output_format : OutputFormats) : list string :=
  fold_left (fun markdown function =>
               markdown ++ write_function output_format function)
            functions [].

Definition auto_generated_notice : string :=
  "Auto-generated from JSON by GDScript docs maker. Do not edit this document directly.".

(** The sections after the title, in the order of the list display of
    [as_markdown]; [extends] is the result of [extends_as_string]. *)
Definition body_of (gdscript : GDScriptClass.t)
  (output_format : OutputFormats) (extends : string) : list string :=
  [(make_bold "Extends:" ++ " " ++ extends)%string]
  ++ MarkdownSection.as_text "Description" 2
       [GDScriptClass.description gdscript]
  ++ MarkdownSection.as_text "Properties" 2 (summarize_members gdscript)
  ++ MarkdownSection.as_text "Methods" 2 (summarize_methods gdscript)
  ++ MarkdownSection.as_text "Signals" 2
       (write_signals (GDScriptClass.signals gdscript))
  ++ MarkdownSection.as_text "Enumerations" 2
       (write_enums (GDScriptClass.enums gdscript) output_format)
  ++ MarkdownSection.as_text "Property Descriptions" 2
       (write_members (GDScriptClass.members gdscript) output_format)
  ++ MarkdownSection.as_text "Method Descriptions" 2
       (write_functions (GDScriptClass.functions gdscript) output_format).

Definition as_markdown (gdscript : GDScriptClass.t) (arguments : Namespace)
  : result MarkdownDocument :=
  let content := [] in
  let output_format := format arguments in
  let name := GDScriptClass.name gdscript in
  let name :=
    if PyStr.contains (GDScriptClass.tags gdscript) "abstract"
    then (name ++ " " ++ surround_with_html "(abstract)" "small")%string
    else name in
  let content :=
    if is_HUGO output_format
    then content ++ front_matter gdscript arguments
    else content in
  let content :=
    content ++ [(make_comment auto_generated_notice ++ PyStr.nl)%string] in
  let content :=
    if is_MARDKOWN output_format
    then content ++ make_heading name 1
    else content in
  let* extends := GDScriptClass.extends_as_string gdscript in
  let content := content ++ body_of gdscript output_format extends in
  Ok (mkMarkdownDocument (GDScriptClass.name gdscript) content).

Definition convert_to_markdown (classes : GDScriptClasses.t)
  (arguments : Namespace) : result (list MarkdownDocument) :=
  mapM (fun entry => as_markdown entry arguments) classes.

End Renderer.

(** ** Sample inputs

    One implementation of the two interfaces, to run the renderer on
    examples (it is not the formatting of the repository, whose
    make_markdown.py and hugo.py are not among the sources), and the record
    of the end-to-end example of the specification. *)

Definition hashes (level : nat) : string :=
  String.concat "" (repeat "#" level).

Definition plain_markdown : make_markdown := {|
  make_bold s := ("**" ++ s ++ "**")%string;
  make_code_block s := ("```gdscript" ++ PyStr.nl ++ s ++ PyStr.nl ++ "```")%string;
  make_heading line level := [(hashes level ++ " " ++ line)%string; ""];
  surround_with_html s tag :=
    ("<" ++ tag ++ ">" ++ s ++ "</" ++ tag ++ ">")%string;
  make_table_row cells := PyStr.join " | " cells;
  make_table_header cells :=
    [PyStr.join " | " cells; PyStr.join " | " (map (fun _ => "---") cells)];
  wrap_in_newlines lines := [""] ++ lines ++ [""];
  make_comment s := ("<!-- " ++ s ++ " -->")%string
|}.

Definition plain_hugo : hugo := {|
  highlight_code s :=
    ("{{< highlight gdscript >}}" ++ s ++ "{{< / highlight >}}")%string;
  front_matter gdscript _ :=
    ["---"; ("title: " ++ GDScriptClass.name gdscript)%string; "---"]
|}.

Definition method_bar : value :=
  VDict [ ("name", VStr "bar");
          ("signature", VStr "bar() -> null");
          ("return_type", VStr "null");
          ("description", VStr "");
          ("arguments", VList []);
          ("rpc_mode", VInt 0) ].

Definition foo_description : string :=
  "Does things." ++ PyStr.nl ++ "Tags: util" ++ PyStr.nl ++ "Category: Tools".

Definition record_foo : value :=
  VDict [ ("name", VStr "Foo");
          ("extends_class", VList [VStr "Node"]);
          ("description", VStr foo_description);
          ("path", VStr "foo.gd");
          ("methods", VList [method_bar]);
          ("static_functions", VList []);
          ("members", VList []);
          ("signals", VList []);
          ("constants", VList []) ].

Definition method_entry_of (name signature return_type description : string)
  (arguments : list value) : value :=
  VDict [ ("name", VStr name);
          ("signature", VStr signature);
          ("return_type", VStr return_type);
          ("description", VStr description);
          ("arguments", VList arguments) ].

Definition argument_value : value :=
  VDict [ ("name", VStr "value"); ("type", VStr "int") ].

(** One entry for each way of being left out or kept: a built-in callback,
    the constructor without and with arguments, a private method, two
    methods tagged virtual, and one with several [null]s. *)
Definition sample_methods : list value :=
  [ method_bar;
    method_entry_of "_ready" "_ready() -> null" "null" "" [];
    method_entry_of "_init" "_init() -> null" "null" "" [];
    method_entry_of "_init" "_init(value: int) -> null" "null"
      ("Virtual constructor." ++ PyStr.nl ++ "tags: virtual") [argument_value];
    method_entry_of "_helper" "_helper() -> null" "null" "Private." [];
    method_entry_of "_on_hit" "_on_hit() -> null" "null"
      ("Override me." ++ PyStr.nl ++ "Tags: virtual") [];
    method_entry_of "make" "make() -> Node" "Node"
      ("Factory." ++ PyStr.nl ++ "tags: virtual, util") [];
    method_entry_of "null_or_null" "null_or_null(a: null) -> null" "nullnull"
      "" [] ].

(** The class built from [record_foo]. *)
Definition class_foo : GDScriptClass.t :=
  GDScriptClass.mk "Foo" (VList [VStr "Node"]) "Does things." "foo.gd"
    [Function.mk "bar() -> void" METHOD "bar" "" "void" [] (VInt 0) []]
    [] [] [] ["util"] "Tools".

(** The same class without its method. *)
Definition class_empty : GDScriptClass.t :=
  GDScriptClass.mk "Foo" (VList [VStr "Node"]) "Does things." "foo.gd"
    [] [] [] [] ["util"] "Tools".

(** A member with a getter and no setter. *)
Definition member_speed : Member.t :=
  Member.mk "var speed: float" "speed" "The speed." "float" (VInt 0)
    (VBool false) "" "get_speed" [].

Definition other_format : OutputFormats := OTHER (VStr "json").

(** The record of the example with one more method, which has a name only:
    the built-in callback [_ready]. *)
Definition method_ready_only : value := VDict [ ("name", VStr "_ready") ].


(** The record of the example without its path. *)
Definition record_without_path : value :=
  VDict [ ("name", VStr "Foo");
          ("extends_class", VList [VStr "Node"]);
          ("description", VStr foo_description);
          ("methods", VList [method_bar]);
          ("static_functions", VList []);
          ("members", VList []);
          ("signals", VList []);
          ("constants", VList []) ].

(** A private method with its name and description only. *)
Definition method_helper_only : value :=
  VDict [ ("name", VStr "_helper"); ("description", VStr "Private.") ].

(** ** Vocabulary of the statements *)

(** A line that [get_metadata] takes out of the description. *)
Definition is_metadata_line (line : string) : bool :=
  is_tags_line line || is_category_line line.

Fixpoint has_char (c : ascii) (s : string) : bool :=
  match s with
  | EmptyString => false
  | String c' s' => Ascii.eqb c' c || has_char c s'
  end.

Fixpoint all_chars (p : ascii -> bool) (s : string) : bool :=
  match s with
  | EmptyString => true
  | String c s' => p c && all_chars p s'
  end.

(** [x] is the last element of [xs] that satisfies [p]. *)
Definition last_such (p : string -> bool) (xs : list string) (x : string)
  : Prop :=
  exists before after,
    xs = before ++ x :: after /\ p x = true /\ forallb (fun y => negb (p y)) after = true.

(** [line] reads [key: text]: optional blanks, the key in any case, a colon,
    then [text]. *)
Definition reads_as (line key text : string) : Prop :=
  exists blanks word,
    line = (blanks ++ word ++ ":" ++ text)%string
    /\ all_chars PyStr.isspace blanks = true
    /\ PyStr.lower word = key.

(** [r] is [s] with its leftmost occurrence of [old] replaced by [new], or
    [s] itself when [old] does not occur in it. *)
Definition first_replaced (s old new r : string) : Prop :=
  (r = s /\ forall before after, s <> (before ++ old ++ after)%string)
  \/ (exists before after,
         s = (before ++ old ++ after)%string
         /\ r = (before ++ new ++ after)%string
         /\ forall before' after',
              s = (before' ++ old ++ after')%string ->
              String.length before <= String.length before').

(** A raw method entry as the specification speaks of it: every field that
    [_get_functions] reads is present and of its type; [rpc_mode] may be
    absent. *)
Record method_entry : Type := mk_method_entry {
  entry_name : string;
  entry_description : string;
  entry_signature : string;
  entry_return_type : string;
  entry_arguments : list Argument.t;
  entry_rpc_mode : option value
}.

Definition read_method (entry : value) : option method_entry :=
  match get_str entry "name", get_str entry "description",
        get_str entry "signature", get_str entry "return_type",
        getitem entry "arguments" with
  | Ok name, Ok description, Ok signature, Ok return_type, Ok arguments =>
      match _get_arguments arguments with
      | Ok args =>
          Some (mk_method_entry name description signature return_type args
                  (match getitem entry "rpc_mode" with
                   | Ok v => Some v
                   | Err _ => None
                   end))
      | Err _ => None
      end
  | _, _, _, _, _ => None
  end.

(** The tags extracted from a description. *)
Definition extracted_tags (description : string) : list string :=
  snd (fst (get_metadata description)).

(** Virtual: the literal tag [virtual] is among the extracted tags and the
    entry is not from the static-functions list. *)
Definition is_virtual (is_static : bool) (m : method_entry) : bool :=
  PyStr.contains (extracted_tags (entry_description m)) "virtual"
  && negb is_static.

(** The three ways an entry is left out, in the words of the
    specification. *)
Definition excluded (is_static : bool) (m : method_entry) : bool :=
  PyStr.contains BUILTIN_VIRTUAL_CALLBACKS (entry_name m)
  || ((entry_name m =? "_init")%string
      && match entry_arguments m with [] => true | _ :: _ => false end)
  || (PyStr.startswith (entry_name m) "_" && negb (is_virtual is_static m)).

(** static > virtual > plain instance method *)
Definition kind_of (is_static : bool) (m : method_entry) : FunctionTypes :=
  if is_static then STATIC
  else if PyStr.contains (extracted_tags (entry_description m)) "virtual"
       then VIRTUAL
       else METHOD.

(** The object built from a retained entry. *)
Definition function_of (is_static : bool) (m : method_entry) : Function.t :=
  Function.mk
    (PyStr.replace1 (entry_signature m) "-> null" "-> void")
    (kind_of is_static m)
    (entry_name m)
    (PyStr.strip_space_newline (fst (fst (get_metadata (entry_description m)))))
    (PyStr.replace1 (entry_return_type m) "null" "void")
    (entry_arguments m)
    (match entry_rpc_mode m with Some v => v | None => VInt 0 end)
    (extracted_tags (entry_description m)).

(** The dict without [key]. *)
Fixpoint remove_key (key : string) (d : list (string * value))
  : list (string * value) :=
  match d with
  | [] => []
  | (k, v) :: d' =>
      if String.eqb k key then remove_key key d'
      else (k, v) :: remove_key key d'
  end.

(** *** Required keys *)

(** [entry] is a dict without [key]: [entry[key]] raises the [KeyError] of
    [key]. *)
Definition lacks (entry : value) (key : string) : Prop :=
  getitem entry key = Err (KeyError key).

Definition present (entry : value) (key : string) : Prop :=
  exists v, getitem entry key = Ok v.

(** The entries of the list under [key] of a record. *)
Definition entries_under (data : value) (key : string) : list value :=
  match getitem data key with
  | Ok v => match iterate v with Ok entries => entries | Err _ => [] end
  | Err _ => []
  end.

(** The keys of a class record other than [name]. *)
Definition class_keys : list string :=
  [ "extends_class"; "description"; "path"; "methods"; "static_functions";
    "members"; "signals"; "constants" ].









(** *** Proof steps for the error monad *)

(** From [H : bind r k = Ok b]: [r] is some [Ok a], and [H] goes on with
    [k a]. *)
Ltac bind_ok H :=
  match type of H with
  | bind ?r _ = Ok _ =>
      let E := fresh "E" in
      destruct r eqn:E; cbn [bind] in H; [|discriminate H]
  end.

(** From [H : bind r k = Err e]: either [r] is [Ok a] and [H] goes on with
    [k a], or [r] is the error. *)
Ltac bind_err H :=
  match type of H with
  | bind ?r _ = Err _ =>
      let E := fresh "E" in
      destruct r eqn:E; cbn [bind] in H;
      [|injection H as H; try subst]
  end.

(** *** Further vocabulary *)

(** The number of occurrences of a character in a string. *)
Fixpoint count_char (c : ascii) (s : string) : nat :=
  match s with
  | EmptyString => 0
  | String c' s' => (if Ascii.eqb c' c then 1 else 0) + count_char c s'
  end.

(** Two more sample descriptions: one whose second line is no tags line
    (a blank stands before the colon), one whose tags line has nothing
    after the colon. *)
Definition description_without_metadata : string :=
  "Does things." ++ PyStr.nl ++ "  Tags : not a tag line".

Definition description_empty_tags : string :=
  "A." ++ PyStr.nl ++ "tags:".

Fixpoint last_char (s : string) : option ascii :=
  match s with
  | EmptyString => None
  | String c EmptyString => Some c
  | String _ s' => last_char s'
  end.

(** [s] neither starts nor ends with a character of the set [p]. *)
Definition edge_free (p : ascii -> bool) (s : string) : Prop :=
  match s with String c _ => p c = false | EmptyString => True end
  /\ match last_char s with Some c => p c = false | None => True end.

(** [t] is [s] without the characters of the set [p] that stand at its
    ends: what [s.strip(chars)] returns. *)
Definition trimmed (p : ascii -> bool) (s t : string) : Prop :=
  exists left right,
    s = (left ++ t ++ right)%string
    /\ all_chars p left = true
    /\ all_chars p right = true
    /\ edge_free p t.

(** A record with the sample methods and two static functions, one of them
    with a leading underscore. *)
Definition record_with_statics : value :=
  VDict [ ("name", VStr "Tools");
          ("extends_class", VList [VStr "Node"; VStr "Object"]);
          ("description", VStr ("  Helpers." ++ PyStr.nl));
          ("path", VStr "tools.gd");
          ("methods", VList sample_methods);
          ("static_functions",
           VList [ method_entry_of "make" "make() -> Node" "Node"
                     ("Factory." ++ PyStr.nl ++ "tags: virtual") [];
                   method_entry_of "_hidden" "_hidden() -> null" "null"
                     "tags: virtual" [] ]);
          ("members", VList []);
          ("signals", VList []);
          ("constants", VList []) ].

(** A raw member entry with every field, each of its type. *)
Record member_entry : Type := mk_member_entry {
  member_name : string;
  member_description : string;
  member_signature : string;
  member_data_type : string;
  member_default_value : value;
  member_export : value;
  member_setter : string;
  member_getter : string
}.

Definition read_member (entry : value) : option member_entry :=
  match get_str entry "name", get_str entry "description",
        get_str entry "signature", get_str entry "data_type",
        getitem entry "default_value", getitem entry "export",
        get_str entry "setter", get_str entry "getter" with
  | Ok name, Ok description, Ok signature, Ok data_type,
    Ok default_value, Ok export, Ok setter, Ok getter =>
      Some (mk_member_entry name description signature data_type
              default_value export setter getter)
  | _, _, _, _, _, _, _, _ => None
  end.

(** [entry["data_type"] == "Dictionary"], false when it cannot be read. *)
Definition is_dictionary (entry : value) : bool :=
  match is_dictionary_constant entry with
  | Ok b => b
  | Err _ => false
  end.

Definition member_value (name description : string) (setter getter : string)
  : value :=
  VDict [ ("name", VStr name);
          ("description", VStr description);
          ("signature", VStr ("var " ++ name));
          ("data_type", VStr "var");
          ("default_value", VNull);
          ("export", VBool false);
          ("setter", VStr setter);
          ("getter", VStr getter) ].

(** A public member, a private one tagged virtual, and a public one with
    tags. *)
Definition sample_members : list value :=
  [ member_value "speed" "The speed." "set_speed" "";
    member_value "_cache" ("Hidden." ++ PyStr.nl ++ "tags: virtual") "" "";
    member_value "size" ("  The size." ++ PyStr.nl ++ "Tags: a, b") "" "" ].

(** A scalar constant with its data type only, and a dictionary constant. *)
Definition sample_constants : list value :=
  [ VDict [ ("data_type", VStr "int") ];
    VDict [ ("name", VStr "Mode");
            ("signature", VStr "enum Mode {A, B}");
            ("description", VStr "Modes.");
            ("data_type", VStr "Dictionary");
            ("value", VDict [ ("A", VInt 0); ("B", VInt 1) ]) ] ].

(** Two signals, the second one without a description text. *)
Definition sample_signals : list value :=
  [ VDict [ ("name", VStr "hit");
            ("signature", VStr "signal hit(by)");
            ("description", VStr ("Emitted." ++ PyStr.nl ++ "tags: a"));
            ("arguments", VList [VStr "by"]) ];
    VDict [ ("name", VStr "missed");
            ("signature", VStr "signal missed");
            ("description", VNull);
            ("arguments", VList []) ] ].

(** An argument whose type is [null]. *)
Definition argument_untyped : value :=
  VDict [ ("name", VStr "other"); ("type", VNull) ].

(** [record_foo] with its keys in another order and two keys more. *)
Definition record_foo_reordered : value :=
  VDict [ ("version", VStr "1.0");
          ("constants", VList []);
          ("signals", VList []);
          ("members", VList []);
          ("static_functions", VList []);
          ("methods", VList [method_bar]);
          ("path", VStr "foo.gd");
          ("description", VStr foo_description);
          ("extends_class", VList [VStr "Node"]);
          ("sub_classes", VList []);
          ("name", VStr "Foo") ].

Definition dict_of (entry : value) : list (string * value) :=
  match entry with VDict d => d | _ => [] end.

(** [key in d] *)
Definition has_name (d : list (string * value)) : bool :=
  match lookup "name" d with Some _ => true | None => false end.

(** A class whose [extends] is a plain string, as the annotation of the
    field says, and one whose [extends] is a number. *)
Definition class_extends_str : GDScriptClass.t :=
  GDScriptClass.mk "Foo" (VStr "Node") "" "foo.gd" [] [] [] [] [] "".

Definition class_extends_int : GDScriptClass.t :=
  GDScriptClass.mk "Bar" (VInt 3) "" "bar.gd" [] [] [] [] ["abstract"] "".

Definition class_abstract : GDScriptClass.t :=
  GDScriptClass.mk "Base" (VList []) "" "base.gd" [] [] [] [] ["abstract"] "".

(** * Properties *)

(** ** Strings *)

Lemma append_nil_r (s : string) : (s ++ "")%string = s.
Proof. induction s; simpl; congruence. Qed.

Lemma append_assoc (a b c : string) :
  ((a ++ b) ++ c)%string = (a ++ (b ++ c))%string.
Proof. induction a; simpl; congruence. Qed.

Lemma length_append (a b : string) :
  String.length (a ++ b) = String.length a + String.length b.
Proof. induction a; simpl; congruence. Qed.

Lemma drop_append (a b : string) : PyStr.drop (String.length a) (a ++ b) = b.
Proof. induction a; simpl; auto. Qed.

Lemma prefix_append (p s : string) :
  prefix p s = true -> s = (p ++ PyStr.drop (String.length p) s)%string.
Proof.
  revert s; induction p as [|a p IH]; intros s H.
  - reflexivity.
  - destruct s as [|b s]; simpl in H; [discriminate|].
    destruct (ascii_dec a b) as [->|]; [|discriminate].
    simpl. f_equal. now apply IH.
Qed.

Lemma prefix_of_append (p s : string) : prefix p (p ++ s) = true.
Proof.
  induction p as [|a p IH]; simpl.
  - now destruct s.
  - destruct (ascii_dec a a); [assumption|congruence].
Qed.

Lemma prefix_nil (s : string) : prefix "" s = true.
Proof. now destruct s. Qed.

(** *** split and join *)

Lemma split_not_nil (s : string) (sep : ascii) : PyStr.split s sep <> [].
Proof.
  destruct s as [|c s]; simpl; [discriminate|].
  destruct (Ascii.eqb c sep); [discriminate|].
  destruct (PyStr.split s sep); discriminate.
Qed.

Lemma split_without_sep (s : string) (sep : ascii) :
  has_char sep s = false -> PyStr.split s sep = [s].
Proof.
  induction s as [|c s IH]; simpl; intros H; [reflexivity|].
  apply orb_false_iff in H as [Hc Hs].
  rewrite Hc, (IH Hs). reflexivity.
Qed.

Lemma split_append (a b : string) (sep : ascii) :
  has_char sep a = false ->
  PyStr.split (a ++ String sep b) sep = a :: PyStr.split b sep.
Proof.
  induction a as [|c a IH]; simpl; intros H.
  - now rewrite Ascii.eqb_refl.
  - apply orb_false_iff in H as [Hc Ha].
    rewrite Hc, (IH Ha). reflexivity.
Qed.

Lemma split_parts_without_sep (s : string) (sep : ascii) :
  Forall (fun part => has_char sep part = false) (PyStr.split s sep).
Proof.
  induction s as [|c s IH]; simpl.
  - repeat constructor.
  - destruct (Ascii.eqb c sep) eqn:E.
    + constructor; [reflexivity|assumption].
    + destruct (PyStr.split s sep) as [|h t].
      * constructor; [simpl; now rewrite E|constructor].
      * inversion IH; subst. constructor; [simpl; now rewrite E|assumption].
Qed.

Lemma split_join (parts : list string) (sep : ascii) :
  parts <> [] ->
  Forall (fun part => has_char sep part = false) parts ->
  PyStr.split (PyStr.join (String sep "") parts) sep = parts.
Proof.
  induction parts as [|x parts IH]; intros Hne Hall; [congruence|].
  inversion Hall as [|? ? Hx Hrest]; subst.
  destruct parts as [|y parts].
  - simpl. now apply split_without_sep.
  - change (PyStr.join (String sep "") (x :: y :: parts))
      with (x ++ String sep (PyStr.join (String sep "") (y :: parts)))%string.
    rewrite split_append by assumption.
    f_equal. apply IH; [discriminate|assumption].
Qed.

(** *** Characters *)

Lemma isspace_lower_char (c : ascii) :
  PyStr.isspace (PyStr.lower_char c) = PyStr.isspace c.
Proof. destruct c as [[] [] [] [] [] [] [] []]; reflexivity. Qed.

Lemma lower_char_colon (c : ascii) :
  Ascii.eqb (PyStr.lower_char c) ":" = Ascii.eqb c ":".
Proof. destruct c as [[] [] [] [] [] [] [] []]; reflexivity. Qed.

Lemma isspace_not_colon (c : ascii) :
  PyStr.isspace c = true -> Ascii.eqb c ":" = false.
Proof. destruct c as [[] [] [] [] [] [] [] []]; simpl; intros H; (reflexivity || discriminate H). Qed.

(** *** strip and lower *)

Lemma lstrip_with_split (p : ascii -> bool) (s : string) :
  exists blanks,
    s = (blanks ++ PyStr.lstrip_with p s)%string /\ all_chars p blanks = true.
Proof.
  induction s as [|c s (blanks & E & H)]; simpl.
  - now exists "".
  - destruct (p c) eqn:Hc.
    + exists (String c blanks). simpl. rewrite Hc, H. now rewrite <- E.
    + now exists "".
Qed.

Lemma rstrip_with_split (p : ascii -> bool) (s : string) :
  exists tail, s = (PyStr.rstrip_with p s ++ tail)%string.
Proof.
  induction s as [|c s (tail & E)]; simpl.
  - now exists "".
  - destruct (PyStr.rstrip_with p s) as [|c' r].
    + destruct (p c).
      * now exists (String c s).
      * exists tail. simpl in *. congruence.
    + exists tail. simpl in *. congruence.
Qed.

Lemma lower_lstrip (s : string) :
  PyStr.lower (PyStr.lstrip_with PyStr.isspace s)
  = PyStr.lstrip_with PyStr.isspace (PyStr.lower s).
Proof.
  induction s as [|c s IH]; simpl; [reflexivity|].
  rewrite isspace_lower_char. now destruct (PyStr.isspace c).
Qed.

Lemma lower_rstrip (s : string) :
  PyStr.lower (PyStr.rstrip_with PyStr.isspace s)
  = PyStr.rstrip_with PyStr.isspace (PyStr.lower s).
Proof.
  induction s as [|c s IH]; simpl; [reflexivity|].
  rewrite <- IH, isspace_lower_char.
  destruct (PyStr.rstrip_with PyStr.isspace s); simpl; [|reflexivity].
  now destruct (PyStr.isspace c).
Qed.

Lemma line_stripped_lower (line : string) :
  line_stripped line = PyStr.strip (PyStr.lower line).
Proof.
  unfold line_stripped, PyStr.strip, PyStr.strip_with.
  now rewrite lower_rstrip, lower_lstrip.
Qed.

Lemma has_colon_lower (s : string) :
  has_char ":" (PyStr.lower s) = has_char ":" s.
Proof.
  induction s as [|c s IH]; simpl; [reflexivity|].
  now rewrite lower_char_colon, IH.
Qed.

Lemma blanks_without_colon (s : string) :
  all_chars PyStr.isspace s = true -> has_char ":" s = false.
Proof.
  induction s as [|c s IH]; simpl; [reflexivity|].
  intros H. apply andb_true_iff in H as [Hc Hs].
  now rewrite (isspace_not_colon _ Hc), IH.
Qed.

Lemma has_char_append (c : ascii) (a b : string) :
  has_char c (a ++ b) = has_char c a || has_char c b.
Proof.
  induction a as [|x a IH]; simpl; [reflexivity|].
  now rewrite IH, orb_assoc.
Qed.

(** *** The text after the first colon *)

Lemma find_colon (before text : string) (i : Z) :
  has_char ":" before = false ->
  PyStr.find_from ":" (before ++ ":" ++ text) i
  = (i + Z.of_nat (String.length before))%Z.
Proof.
  revert i; induction before as [|c before IH]; intros i H.
  - simpl. rewrite prefix_nil. lia.
  - simpl in H. apply orb_false_iff in H as [Hc Hb].
    cbn [append PyStr.find_from prefix].
    destruct (ascii_dec ":" c) as [<-|_];
      [now rewrite Ascii.eqb_refl in Hc|].
    rewrite IH by assumption. cbn [String.length]. lia.
Qed.

Lemma after_colon_append (before text : string) :
  has_char ":" before = false ->
  after_colon (before ++ ":" ++ text) = text.
Proof.
  intros H. unfold after_colon, PyStr.find, PyStr.slice_from.
  rewrite find_colon by assumption.
  destruct (Z.leb_spec 0 (0 + Z.of_nat (String.length before) + 1)); [|lia].
  replace (Z.to_nat (0 + Z.of_nat (String.length before) + 1))
    with (String.length (before ++ ":")).
  - rewrite <- (drop_append (before ++ ":") text) at 2.
    now rewrite append_assoc.
  - rewrite length_append. simpl. lia.
Qed.

Lemma lower_prefix_key (key s : string) :
  prefix (key ++ ":") (PyStr.lower s) = true ->
  exists word text,
    s = (word ++ ":" ++ text)%string /\ PyStr.lower word = key.
Proof.
  revert s; induction key as [|a key IH]; intros [|c s] H;
    cbn [prefix PyStr.lower append] in H; try discriminate.
  - destruct (ascii_dec ":" (PyStr.lower_char c)) as [E|]; [|discriminate].
    exists "", s. split; [|reflexivity]. simpl. f_equal.
    symmetry in E. apply Ascii.eqb_eq in E. rewrite lower_char_colon in E.
    now apply Ascii.eqb_eq in E.
  - destruct (ascii_dec a (PyStr.lower_char c)) as [->|]; [|discriminate].
    destruct (IH s H) as (word & text & -> & <-).
    now exists (String c word), text.
Qed.

Lemma metadata_line_reads_as (line key : string) :
  has_char ":" key = false ->
  PyStr.startswith (line_stripped line) (key ++ ":") = true ->
  reads_as line key (after_colon line).
Proof.
  intros Hkey H. unfold PyStr.startswith, line_stripped, PyStr.strip,
    PyStr.strip_with in H.
  destruct (lstrip_with_split PyStr.isspace line) as (blanks & E & Hb).
  destruct (rstrip_with_split PyStr.isspace
              (PyStr.lstrip_with PyStr.isspace line)) as (tail & E').
  destruct (lower_prefix_key _ _ H) as (word & text & Ew & Hw).
  assert (El : line = ((blanks ++ word) ++ ":" ++ (text ++ tail))%string).
  { rewrite E at 1. rewrite E' at 1. rewrite Ew.
    now rewrite !append_assoc. }
  assert (Hc : has_char ":" (blanks ++ word) = false).
  { rewrite has_char_append, (blanks_without_colon _ Hb).
    now rewrite <- has_colon_lower, Hw. }
  exists blanks, word. repeat split; try assumption.
  rewrite El at 2. rewrite (after_colon_append _ _ Hc).
  rewrite El at 1. now rewrite !append_assoc.
Qed.

(** *** What strip leaves *)

Lemma lstrip_with_head (p : ascii -> bool) (s : string) :
  match PyStr.lstrip_with p s with
  | EmptyString => True
  | String c _ => p c = false
  end.
Proof.
  induction s as [|c s IH]; simpl; [exact I|].
  destruct (p c) eqn:E; [assumption|simpl; assumption].
Qed.

Lemma rstrip_with_keeps_head (p : ascii -> bool) (c : ascii) (s : string) :
  p c = false ->
  exists r, PyStr.rstrip_with p (String c s) = String c r.
Proof.
  intros Hc. cbn [PyStr.rstrip_with].
  destruct (PyStr.rstrip_with p s); [rewrite Hc|]; now eexists.
Qed.

Lemma rstrip_with_last (p : ascii -> bool) (s : string) :
  match last_char (PyStr.rstrip_with p s) with
  | Some c => p c = false
  | None => True
  end.
Proof.
  induction s as [|c s IH]; [exact I|].
  cbn [PyStr.rstrip_with].
  destruct (PyStr.rstrip_with p s) as [|c' r].
  - destruct (p c) eqn:E; simpl; [exact I|assumption].
  - exact IH.
Qed.

(** A stripped string has none of the stripped characters at its ends. *)
Lemma strip_with_edge_free (p : ascii -> bool) (s : string) :
  edge_free p (PyStr.strip_with p s).
Proof.
  unfold edge_free, PyStr.strip_with. split; [|apply rstrip_with_last].
  pose proof (lstrip_with_head p s) as H.
  destruct (PyStr.lstrip_with p s) as [|c t]; [exact I|].
  destruct (rstrip_with_keeps_head p c t H) as (r & ->). exact H.
Qed.

Lemma rstrip_with_tail (p : ascii -> bool) (s : string) :
  exists tail,
    s = (PyStr.rstrip_with p s ++ tail)%string /\ all_chars p tail = true.
Proof.
  induction s as [|c s (tail & E & H)]; simpl.
  - now exists "".
  - destruct (PyStr.rstrip_with p s) as [|c' r].
    + destruct (p c) eqn:Hc.
      * exists (String c s). split; [reflexivity|].
        simpl in E. subst s. simpl. now rewrite Hc.
      * exists tail. simpl in *. split; [congruence|assumption].
    + exists tail. simpl in *. split; [congruence|assumption].
Qed.

(** The stripped string is the string without the run of stripped
    characters at each end. *)
Lemma strip_with_trimmed (p : ascii -> bool) (s : string) :
  trimmed p s (PyStr.strip_with p s).
Proof.
  unfold trimmed, PyStr.strip_with.
  destruct (lstrip_with_split p s) as (blanks & E & Hb).
  destruct (rstrip_with_tail p (PyStr.lstrip_with p s)) as (tail & E' & Ht).
  exists blanks, tail. repeat split; try assumption.
  - rewrite E at 1. now rewrite E' at 1.
  - apply (strip_with_edge_free p s).
  - apply (strip_with_edge_free p s).
Qed.

Lemma Forall2_map_right {A B : Type} (R : A -> B -> Prop) (f : A -> B)
  (xs : list A) :
  (forall x, R x (f x)) -> Forall2 R xs (map f xs).
Proof.
  intros H. induction xs as [|x xs IH]; simpl; constructor;
    [apply H|assumption].
Qed.

Lemma lstrip_with_blanks (p : ascii -> bool) (blanks s : string) :
  all_chars p blanks = true ->
  PyStr.lstrip_with p (blanks ++ s) = PyStr.lstrip_with p s.
Proof.
  induction blanks as [|c blanks IH]; simpl; intros H; [reflexivity|].
  apply andb_true_iff in H as [Hc Hb]. rewrite Hc. now apply IH.
Qed.

Lemma rstrip_with_blanks (p : ascii -> bool) (s blanks : string) :
  all_chars p blanks = true ->
  PyStr.rstrip_with p (s ++ blanks) = PyStr.rstrip_with p s.
Proof.
  intros H. induction s as [|c s IH].
  - simpl. induction blanks as [|b blanks IHb]; [reflexivity|].
    simpl in H. apply andb_true_iff in H as [Hb Hbs].
    cbn [PyStr.rstrip_with]. now rewrite (IHb Hbs), Hb.
  - cbn [append PyStr.rstrip_with]. now rewrite IH.
Qed.

Lemma rstrip_with_fixed (p : ascii -> bool) (s : string) :
  match last_char s with Some c => p c = false | None => True end ->
  PyStr.rstrip_with p s = s.
Proof.
  induction s as [|c s IH]; [reflexivity|].
  intros H. cbn [PyStr.rstrip_with]. destruct s as [|c' s].
  - simpl in *. now rewrite H.
  - rewrite (IH H). reflexivity.
Qed.

(** Being trimmed determines the result: it is what [strip] returns, and
    nothing else. *)
Lemma trimmed_strip_with (p : ascii -> bool) (s t : string) :
  trimmed p s t <-> t = PyStr.strip_with p s.
Proof.
  split; [|intros ->; apply strip_with_trimmed].
  intros (lead & trail & -> & Hl & Hr & Hhead & Hlast).
  unfold PyStr.strip_with. rewrite (lstrip_with_blanks _ _ _ Hl).
  destruct t as [|c t].
  - simpl. rewrite <- (append_nil_r trail) at 1.
    rewrite (lstrip_with_blanks _ _ _ Hr). reflexivity.
  - cbn [append PyStr.lstrip_with]. rewrite Hhead.
    change (String c (t ++ trail)) with (String c t ++ trail)%string.
    rewrite (rstrip_with_blanks _ _ _ Hr). symmetry.
    now apply rstrip_with_fixed.
Qed.

(** ** get_metadata *)

Lemma category_line_not_tags (line : string) :
  is_category_line line = true -> is_tags_line line = false.
Proof.
  unfold is_category_line, is_tags_line, PyStr.startswith.
  destruct (line_stripped line) as [|c s]; cbn [prefix]; [discriminate|].
  destruct (ascii_dec "c" c) as [<-|]; [|discriminate].
  intros _. now destruct (ascii_dec "t" "c").
Qed.

Lemma empty_line_not_metadata : is_metadata_line "" = false.
Proof. reflexivity. Qed.

(** The loop of [get_metadata], one component of its state at a time. *)
Lemma get_metadata_loop (lines : list string) :
  forall tags category kept,
    fold_left get_metadata_step lines (tags, category, kept)
    = (fold_left (fun t l => if is_tags_line l
                             then map PyStr.strip
                                    (PyStr.split (after_colon l) PyStr.comma)
                             else t) lines tags,
       fold_left (fun c l => if is_category_line l
                             then PyStr.strip (after_colon l) else c)
                 lines category,
       kept ++ filter (fun l => negb (is_metadata_line l)) lines).
Proof.
  induction lines as [|line lines IH]; intros tags category kept.
  - simpl. now rewrite app_nil_r.
  - cbn [fold_left filter].
    assert (Hstep : get_metadata_step (tags, category, kept) line
            = if is_tags_line line then
                (map PyStr.strip (PyStr.split (after_colon line) PyStr.comma),
                 category, kept)
              else if is_category_line line then
                (tags, PyStr.strip (after_colon line), kept)
              else (tags, category, kept ++ [line])) by reflexivity.
    rewrite Hstep. unfold is_metadata_line at 1.
    destruct (is_category_line line) eqn:Hc.
    + rewrite (category_line_not_tags _ Hc). cbn [orb negb]. apply IH.
    + destruct (is_tags_line line); cbn [orb negb].
      * apply IH.
      * rewrite IH. now rewrite <- app_assoc.
Qed.

Lemma fold_last_such {A : Type} (p : string -> bool) (f : string -> A)
  (xs : list string) (x : string) (a : A) :
  last_such p xs x ->
  fold_left (fun acc l => if p l then f l else acc) xs a = f x.
Proof.
  intros (before & after & -> & Hx & Hafter).
  rewrite fold_left_app. cbn [fold_left]. rewrite Hx.
  generalize (f x). clear Hx.
  induction after as [|y after IH]; intros b; [reflexivity|].
  simpl in Hafter. apply andb_true_iff in Hafter as [Hy Hrest].
  cbn [fold_left]. apply negb_true_iff in Hy. rewrite Hy. now apply IH.
Qed.

Lemma existsb_last_such (p : string -> bool) (xs : list string) :
  existsb p xs = true -> exists x, last_such p xs x.
Proof.
  induction xs as [|a xs IH]; [discriminate|].
  intros H. destruct (existsb p xs) eqn:E.
  - destruct (IH eq_refl) as (x & before & after & -> & Hx & Hafter).
    exists x, (a :: before), after. now repeat split.
  - simpl in H. rewrite E, orb_false_r in H.
    exists a, [], xs. repeat split; [assumption|].
    clear IH H. induction xs as [|b xs IH]; [reflexivity|].
    simpl in E. apply orb_false_iff in E as [Hb Hxs].
    simpl. now rewrite Hb, IH.
Qed.

Lemma kept_lines_survive (lines : list string) :
  Forall (fun l => has_char PyStr.newline l = false) lines ->
  Forall (fun l => is_metadata_line l = false)
    (PyStr.split
       (PyStr.join PyStr.nl
          (filter (fun l => negb (is_metadata_line l)) lines))
       PyStr.newline).
Proof.
  intros Hlines.
  destruct (filter (fun l => negb (is_metadata_line l)) lines) as [|k kept] eqn:E.
  - repeat constructor.
  - unfold PyStr.nl. rewrite split_join; [|discriminate|].
    + rewrite <- E. apply Forall_forall. intros l Hl.
      apply filter_In in Hl as [_ Hl]. now apply negb_true_iff.
    + rewrite <- E. apply Forall_forall. intros l Hl.
      apply filter_In in Hl as [Hl _].
      now apply (proj1 (Forall_forall _ _) Hlines).
Qed.

(** C1. For every description with a line whose stripped, lower-cased form
    starts with [tags:] and a line that starts with [category:], wherever
    they stand, [get_metadata] returns: the entries of the text after the
    colon of the (last) tags line, split on commas, each without the
    whitespace at its ends; the text after the colon of the (last) category
    line without the whitespace at its ends; and the other lines, in order,
    joined by newlines, so that no line of the returned description is a
    metadata line.  The match reads the lower-cased line: two lines that
    differ in case only are matched alike. *)
Theorem get_metadata_tags_and_category (description : string) :
  let lines := PyStr.split description PyStr.newline in
  existsb is_tags_line lines = true ->
  existsb is_category_line lines = true ->
  exists tags_line category_line,
    last_such is_tags_line lines tags_line
    /\ last_such is_category_line lines category_line
    /\ reads_as tags_line "tags" (after_colon tags_line)
    /\ reads_as category_line "category" (after_colon category_line)
    /\ get_metadata description
       = (PyStr.join PyStr.nl
            (filter (fun l => negb (is_metadata_line l)) lines),
          map PyStr.strip (PyStr.split (after_colon tags_line) PyStr.comma),
          PyStr.strip (after_colon category_line))
    /\ Forall2 (trimmed PyStr.isspace)
         (PyStr.split (after_colon tags_line) PyStr.comma)
         (snd (fst (get_metadata description)))
    /\ trimmed PyStr.isspace (after_colon category_line)
         (snd (get_metadata description))
    /\ Forall (fun l => is_metadata_line l = false)
         (PyStr.split (fst (fst (get_metadata description))) PyStr.newline)
    /\ (forall l l' : string,
           PyStr.lower l = PyStr.lower l' ->
           is_tags_line l = is_tags_line l'
           /\ is_category_line l = is_category_line l').
Proof.
  intros lines Ht Hc.
  destruct (existsb_last_such _ _ Ht) as (tl & Htl).
  destruct (existsb_last_such _ _ Hc) as (cl & Hcl).
  assert (E : get_metadata description
              = (PyStr.join PyStr.nl
                   (filter (fun l => negb (is_metadata_line l)) lines),
                 map PyStr.strip (PyStr.split (after_colon tl) PyStr.comma),
                 PyStr.strip (after_colon cl))).
  { unfold get_metadata. fold lines. rewrite get_metadata_loop.
    rewrite (fold_last_such is_tags_line
               (fun l => map PyStr.strip
                           (PyStr.split (after_colon l) PyStr.comma))
               lines tl [] Htl).
    now rewrite (fold_last_such is_category_line
                   (fun l => PyStr.strip (after_colon l)) lines cl "" Hcl). }
  exists tl, cl. repeat apply conj; try assumption.
  - destruct Htl as (_ & _ & _ & H & _).
    now apply (metadata_line_reads_as tl "tags").
  - destruct Hcl as (_ & _ & _ & H & _).
    now apply (metadata_line_reads_as cl "category").
  - rewrite E. cbn [fst snd]. apply Forall2_map_right.
    intros piece. apply strip_with_trimmed.
  - rewrite E. cbn [snd]. apply strip_with_trimmed.
  - rewrite E. cbn [fst]. apply kept_lines_survive.
    apply split_parts_without_sep.
  - intros l l' H. unfold is_tags_line, is_category_line.
    now rewrite (line_stripped_lower l), (line_stripped_lower l'), H.
Qed.

Lemma get_metadata_tags_and_category_witness :
  get_metadata foo_description = ("Does things.", ["util"], "Tools")
  /\ exists tags_line category_line,
       last_such is_tags_line
         (PyStr.split foo_description PyStr.newline) tags_line
       /\ last_such is_category_line
            (PyStr.split foo_description PyStr.newline) category_line
       /\ Forall2 (trimmed PyStr.isspace)
            (PyStr.split (after_colon tags_line) PyStr.comma) ["util"]
       /\ trimmed PyStr.isspace (after_colon category_line) "Tools".
Proof.
  split; [reflexivity|].
  destruct (get_metadata_tags_and_category foo_description
              eq_refl eq_refl)
    as (tl & cl & Ht & Hc & _ & _ & _ & Htags & Hcategory & _).
  exists tl, cl. repeat split; assumption.
Defined.

(** ** _get_functions *)

Lemma replace1_first_replaced (s old new : string) :
  first_replaced s old new (PyStr.replace1 s old new).
Proof.
  induction s as [|c s IH].
  - cbn [PyStr.replace1]. destruct (prefix old "") eqn:P.
    + right. exists "", (PyStr.drop (String.length old) "").
      repeat split; [now apply prefix_append | intros; simpl; lia].
    + left. split; [reflexivity|]. intros before after E.
      destruct before; [|discriminate]. simpl in E.
      rewrite E, prefix_of_append in P. discriminate.
  - cbn [PyStr.replace1]. destruct (prefix old (String c s)) eqn:P.
    + right. exists "", (PyStr.drop (String.length old) (String c s)).
      repeat split; [now apply prefix_append | intros; simpl; lia].
    + assert (Hhead : forall before after,
                 String c s = (before ++ old ++ after)%string ->
                 exists before', before = String c before'
                                 /\ s = (before' ++ old ++ after)%string).
      { intros [|b before] after E.
        - simpl in E. rewrite E, prefix_of_append in P. discriminate.
        - simpl in E. injection E as -> E. now exists before. }
      destruct IH as [[E Hno] | (before & after & E & Er & Hleft)].
      * left. rewrite E. split; [reflexivity|].
        intros before after E'.
        destruct (Hhead _ _ E') as (before' & _ & E'').
        exact (Hno _ _ E'').
      * right. exists (String c before), after.
        rewrite Er. split; [now rewrite E at 1|]. split; [reflexivity|].
        intros before1 after1 E1.
        destruct (Hhead _ _ E1) as (before2 & -> & E2).
        simpl. apply le_n_S. exact (Hleft _ _ E2).
Qed.

Lemma get_str_dict (entry : value) (key s : string) :
  get_str entry key = Ok s -> exists d, entry = VDict d.
Proof.
  destruct entry; try discriminate. intros _. now eexists.
Qed.

Lemma get_arguments_truthy (arguments : value) (args : list Argument.t) :
  _get_arguments arguments = Ok args ->
  truthy arguments = match args with [] => false | _ :: _ => true end.
Proof.
  unfold _get_arguments.
  destruct arguments as [| | |s|l|d]; try discriminate; simpl.
  - destruct s as [|c s]; simpl; [now intros [= <-]|discriminate].
  - destruct l as [|x l]; simpl; [now intros [= <-]|].
    destruct (bind (getitem x "name") _); [|discriminate]. simpl.
    destruct (mapM _ l); [|discriminate]. now intros [= <-].
  - destruct d as [|[k v] d]; simpl; [now intros [= <-]|discriminate].
Qed.

(** What the body of the loop does with an entry that has its fields. *)
Lemma get_functions_body_read (is_static : bool) (entry : value)
  (m : method_entry) :
  read_method entry = Some m ->
  _get_functions_body is_static entry
  = Ok (if excluded is_static m then None
        else Some (function_of is_static m)).
Proof.
  unfold read_method.
  destruct (get_str entry "name") as [name|] eqn:Hn; [|discriminate].
  destruct (get_str entry "description") as [description|] eqn:Hd;
    [|discriminate].
  destruct (get_str entry "signature") as [signature|] eqn:Hs;
    [|discriminate].
  destruct (get_str entry "return_type") as [return_type|] eqn:Hr;
    [|discriminate].
  destruct (getitem entry "arguments") as [arguments|] eqn:Ha;
    [|discriminate].
  destruct (_get_arguments arguments) as [args|] eqn:Hargs; [|discriminate].
  intros [= <-].
  destruct (get_str_dict _ _ _ Hn) as (d & ->).
  unfold _get_functions_body, excluded, is_virtual, function_of, kind_of,
    extracted_tags.
  cbn [entry_name entry_description entry_signature entry_return_type
       entry_arguments entry_rpc_mode].
  rewrite Hn. cbn [bind].
  destruct (PyStr.contains BUILTIN_VIRTUAL_CALLBACKS name); [reflexivity|].
  cbn [orb].
  rewrite Ha. unfold TYPE_CONSTRUCTOR. cbn [bind].
  rewrite (get_arguments_truthy _ _ Hargs).
  assert (Hno : (if (name =? "_init")%string
                 then Ok (negb match args with [] => false | _ :: _ => true end)
                 else Ok false)
                = Ok ((name =? "_init")%string
                      && match args with [] => true | _ :: _ => false end)).
  { destruct (name =? "_init")%string; [|reflexivity]. now destruct args. }
  rewrite Hno. cbn [bind].
  destruct ((name =? "_init")%string
            && match args with [] => true | _ :: _ => false end);
    [reflexivity|].
  cbn [orb].
  rewrite Hd. cbn [bind].
  destruct (get_metadata description) as [[text tags] category].
  cbn [fst snd].
  destruct is_static, (PyStr.contains tags "virtual"),
    (PyStr.startswith name "_"); cbn [andb negb orb]; try reflexivity;
    rewrite Hs, Hr; cbn [bind]; rewrite Hargs; cbn [bind has_key getitem];
    destruct (lookup "rpc_mode" d); reflexivity.
Qed.

Lemma for_each_read {A B C : Type} (body : A -> result (option B))
  (view : A -> option C) (keep : C -> bool) (build : C -> B)
  (xs : list A) (cs : list C) :
  (forall x c, view x = Some c ->
               body x = Ok (if keep c then Some (build c) else None)) ->
  Forall2 (fun x c => view x = Some c) xs cs ->
  for_each body xs = Ok (map build (filter keep cs)).
Proof.
  intros Hbody H. induction H as [|x c xs cs Hx _ IH]; [reflexivity|].
  cbn [for_each filter]. rewrite (Hbody _ _ Hx), IH. cbn [bind].
  now destruct (keep c).
Qed.

(** [_get_functions] on a list of entries that have their fields. *)
Lemma get_functions_read (is_static : bool) (entries : list value)
  (ms : list method_entry) :
  Forall2 (fun entry m => read_method entry = Some m) entries ms ->
  _get_functions (VList entries) is_static
  = Ok (map (function_of is_static)
          (filter (fun m => negb (excluded is_static m)) ms)).
Proof.
  intros H. unfold _get_functions. cbn [iterate bind].
  apply (for_each_read _ read_method); [|assumption].
  intros x c Hx. rewrite (get_functions_body_read _ _ _ Hx).
  now destruct (excluded is_static c).
Qed.

(** The record of the end-to-end example of the specification builds the
    class with the tag [util], the category [Tools] and the method [bar]
    returning [void]. *)
Example from_dict_record_foo :
  GDScriptClass.from_dict record_foo = Ok class_foo.
Proof. reflexivity. Qed.

Lemma read_sample_methods :
  exists ms,
    Forall2 (fun entry m => read_method entry = Some m) sample_methods ms.
Proof.
  eexists. unfold sample_methods.
  repeat (apply Forall2_cons; [vm_compute; reflexivity|]).
  apply Forall2_nil.
Defined.

Lemma Forall2_map_filter {A B : Type} (keep : A -> bool) (build : A -> B)
  (R : A -> B -> Prop) (xs : list A) :
  (forall x, keep x = true -> R x (build x)) ->
  Forall2 R (filter keep xs) (map build (filter keep xs)).
Proof.
  intros H. induction xs as [|x xs IH]; simpl; [constructor|].
  destruct (keep x) eqn:E; [|assumption].
  simpl. constructor; [now apply H|assumption].
Qed.

(** C2. Of a list of raw method entries, [_get_functions] leaves an entry
    out if and only if its name is in the list of built-in callbacks, or it
    is [_init] with no declared argument, or its name starts with an
    underscore and it is not virtual (tagged [virtual] in the tags of its
    description, and not from the static-functions list); each other entry
    gives exactly one Function, of its name, tags and arguments, in the order
    of the input. *)
Theorem get_functions_excluded (is_static : bool) (entries : list value)
  (ms : list method_entry) :
  Forall2 (fun entry m => read_method entry = Some m) entries ms ->
  exists functions,
    _get_functions (VList entries) is_static = Ok functions
    /\ Forall2 (fun m f => Function.name f = entry_name m
                           /\ Function.tags f
                              = extracted_tags (entry_description m)
                           /\ Function.arguments f = entry_arguments m)
         (filter (fun m => negb (excluded is_static m)) ms) functions
    /\ Forall2 (fun entry m =>
                  (_get_functions (VList [entry]) is_static = Ok []
                   <-> excluded is_static m = true)
                  /\ (excluded is_static m = false ->
                      exists f,
                        _get_functions (VList [entry]) is_static = Ok [f]))
         entries ms.
Proof.
  intros H. eexists. split; [exact (get_functions_read _ _ _ H)|]. split.
  - now apply Forall2_map_filter.
  - clear -H. induction H as [|entry m entries ms Hm _ IH]; constructor;
      [|assumption].
    assert (E : Forall2 (fun entry m => read_method entry = Some m)
                  [entry] [m]) by (repeat constructor; assumption).
    rewrite (get_functions_read is_static _ _ E). cbn [filter].
    destruct (excluded is_static m); cbn [negb map]; split.
    + now split.
    + discriminate.
    + split; discriminate.
    + intros _. now eexists.
Qed.

Lemma get_functions_excluded_witness :
  exists functions,
    _get_functions (VList sample_methods) false = Ok functions
    /\ map Function.name functions
       = ["bar"; "_init"; "_on_hit"; "make"; "null_or_null"].
Proof.
  destruct read_sample_methods as (ms & Hms).
  destruct (get_functions_excluded false sample_methods ms Hms)
    as (functions & E & _).
  exists functions. split; [exact E|].
  vm_compute in E. injection E as <-. reflexivity.
Defined.

(** C3. The kind of every retained entry: STATIC for an entry of the
    static-functions list, whatever its tags; VIRTUAL for an entry of the
    methods list whose extracted tags contain [virtual]; METHOD for every
    other one. *)
Theorem get_functions_kind (is_static : bool) (entries : list value)
  (ms : list method_entry) :
  Forall2 (fun entry m => read_method entry = Some m) entries ms ->
  exists functions,
    _get_functions (VList entries) is_static = Ok functions
    /\ Forall2 (fun m f =>
                  Function.tags f = extracted_tags (entry_description m)
                  /\ (is_static = true -> Function.kind f = STATIC)
                  /\ (is_static = false ->
                      PyStr.contains (Function.tags f) "virtual" = true ->
                      Function.kind f = VIRTUAL)
                  /\ (is_static = false ->
                      PyStr.contains (Function.tags f) "virtual" = false ->
                      Function.kind f = METHOD))
         (filter (fun m => negb (excluded is_static m)) ms) functions.
Proof.
  intros H. eexists. split; [exact (get_functions_read _ _ _ H)|].
  apply Forall2_map_filter. intros m _.
  unfold function_of, kind_of. cbn [Function.tags Function.kind].
  repeat split.
  - now intros ->.
  - now intros -> ->.
  - now intros -> ->.
Qed.

Lemma get_functions_kind_witness :
  exists statics methods,
    _get_functions (VList sample_methods) true = Ok statics
    /\ map Function.name statics = ["bar"; "make"; "null_or_null"]
    /\ map Function.tags statics = [[]; ["virtual"; "util"]; []]
    /\ map Function.kind statics = [STATIC; STATIC; STATIC]
    /\ _get_functions (VList sample_methods) false = Ok methods
    /\ map Function.kind methods
       = [METHOD; VIRTUAL; VIRTUAL; VIRTUAL; METHOD].
Proof.
  destruct read_sample_methods as (ms & Hms).
  destruct (get_functions_kind true sample_methods ms Hms)
    as (statics & E & _).
  destruct (get_functions_kind false sample_methods ms Hms)
    as (methods & E' & _).
  exists statics, methods.
  vm_compute in E. injection E as <-.
  vm_compute in E'. injection E' as <-.
  repeat split.
Defined.

(** C5. The return type of every retained entry is stored with its leftmost
    [null] replaced by [void], and its signature with its leftmost
    [-> null] replaced by [-> void]; a field without the substring is stored
    as it is, and nothing after the first occurrence changes. *)
Theorem get_functions_null_to_void (is_static : bool) (entries : list value)
  (ms : list method_entry) :
  Forall2 (fun entry m => read_method entry = Some m) entries ms ->
  exists functions,
    _get_functions (VList entries) is_static = Ok functions
    /\ Forall2 (fun m f =>
                  Function.return_type f
                  = PyStr.replace1 (entry_return_type m) "null" "void"
                  /\ first_replaced (entry_return_type m) "null" "void"
                       (Function.return_type f)
                  /\ Function.signature f
                     = PyStr.replace1 (entry_signature m) "-> null" "-> void"
                  /\ first_replaced (entry_signature m) "-> null" "-> void"
                       (Function.signature f))
         (filter (fun m => negb (excluded is_static m)) ms) functions.
Proof.
  intros H. eexists. split; [exact (get_functions_read _ _ _ H)|].
  apply Forall2_map_filter. intros m _.
  unfold function_of. cbn [Function.return_type Function.signature].
  repeat split; apply replace1_first_replaced.
Qed.

Lemma get_functions_null_to_void_witness :
  exists functions,
    _get_functions (VList sample_methods) false = Ok functions
    /\ map Function.return_type functions
       = ["void"; "void"; "void"; "Node"; "voidnull"]
    /\ map Function.signature functions
       = ["bar() -> void"; "_init(value: int) -> void"; "_on_hit() -> void";
          "make() -> Node"; "null_or_null(a: null) -> void"].
Proof.
  destruct read_sample_methods as (ms & Hms).
  destruct (get_functions_null_to_void false sample_methods ms Hms)
    as (functions & E & _).
  exists functions. split; [exact E|].
  vm_compute in E. injection E as <-. split; reflexivity.
Defined.

(** ** The keys of a method entry *)

Lemma lookup_remove_key (key k : string) (d : list (string * value)) :
  lookup k (remove_key key d)
  = if String.eqb k key then None else lookup k d.
Proof.
  induction d as [|[k' v] d IH]; simpl.
  - now destruct (String.eqb k key).
  - destruct (String.eqb k' key) eqn:E.
    + rewrite IH. destruct (String.eqb k key) eqn:E'; [reflexivity|].
      apply String.eqb_eq in E. subst k'.
      rewrite String.eqb_sym in E'. now rewrite E'.
    + simpl. destruct (String.eqb k' k) eqn:E'; [|assumption].
      apply String.eqb_eq in E'. subst k'. now rewrite E.
Qed.

Lemma getitem_remove_key (key k : string) (d : list (string * value)) :
  getitem (VDict (remove_key key d)) k
  = if String.eqb k key then Err (KeyError k) else getitem (VDict d) k.
Proof.
  unfold getitem. rewrite lookup_remove_key.
  now destruct (String.eqb k key).
Qed.

Lemma get_str_remove_key (key k : string) (d : list (string * value)) :
  get_str (VDict (remove_key key d)) k
  = if String.eqb k key then Err (KeyError k) else get_str (VDict d) k.
Proof.
  unfold get_str. rewrite getitem_remove_key.
  now destruct (String.eqb k key).
Qed.

Lemma has_key_remove_key (key k : string) (d : list (string * value)) :
  has_key (VDict (remove_key key d)) k
  = if String.eqb k key then Ok false else has_key (VDict d) k.
Proof.
  unfold has_key. rewrite lookup_remove_key.
  now destruct (String.eqb k key).
Qed.

Lemma read_method_fields (entry : value) (m : method_entry) :
  read_method entry = Some m ->
  exists arguments,
    get_str entry "name" = Ok (entry_name m)
    /\ get_str entry "description" = Ok (entry_description m)
    /\ get_str entry "signature" = Ok (entry_signature m)
    /\ get_str entry "return_type" = Ok (entry_return_type m)
    /\ getitem entry "arguments" = Ok arguments
    /\ _get_arguments arguments = Ok (entry_arguments m).
Proof.
  unfold read_method.
  destruct (get_str entry "name"); [|discriminate].
  destruct (get_str entry "description"); [|discriminate].
  destruct (get_str entry "signature"); [|discriminate].
  destruct (get_str entry "return_type"); [|discriminate].
  destruct (getitem entry "arguments") as [arguments|]; [|discriminate].
  destruct (_get_arguments arguments) eqn:E; [|discriminate].
  intros [= <-]. exists arguments. now repeat split.
Qed.

(** What the body of the loop does with a retained entry once one of the
    keys it reads is taken out. *)
Lemma get_functions_body_without (is_static : bool)
  (d : list (string * value)) (m : method_entry) (key : string) :
  read_method (VDict d) = Some m ->
  excluded is_static m = false ->
  In key ["name"; "description"; "signature"; "return_type"; "arguments"] ->
  _get_functions_body is_static (VDict (remove_key key d))
  = Err (KeyError key).
Proof.
  intros Hm Hex Hkey.
  destruct (read_method_fields _ _ Hm)
    as (arguments & Hn & Hd & Hs & Hr & Ha & Hargs).
  unfold excluded, is_virtual, extracted_tags in Hex.
  apply orb_false_iff in Hex as [Hex Hprivate].
  apply orb_false_iff in Hex as [Hbuiltin Hinit].
  pose proof (get_arguments_truthy _ _ Hargs) as Htruthy.
  unfold _get_functions_body, TYPE_CONSTRUCTOR.
  rewrite !get_str_remove_key, !getitem_remove_key.
  simpl in Hkey.
  destruct Hkey as [<-|[<-|[<-|[<-|[<-|[]]]]]];
    cbn [String.eqb Ascii.eqb Bool.eqb];
    rewrite ?Hn, ?Hd, ?Hs, ?Hr, ?Ha; cbn [bind]; try reflexivity;
    rewrite Hbuiltin.
  all: destruct (entry_name m =? "_init")%string;
    cbn [bind andb] in *; try reflexivity.
  all: rewrite ?Htruthy.
  all: try (destruct (entry_arguments m); [discriminate Hinit|];
            cbn [negb bind]).
  all: destruct (get_metadata (entry_description m)) as [[text tags] category];
    cbn [fst snd] in Hprivate; rewrite ?Hprivate; reflexivity.
Qed.

(** C10 (amended). A raw method entry that has every field but [rpc_mode]
    is built without an error, and the Function of a retained one has
    [rpc_mode] 0.  Of a retained entry no other key can be absent: without
    [name], [description], [signature], [return_type] or [arguments] the
    build stops with the [KeyError] of that key, while without [rpc_mode] it
    still gives the Function, with [rpc_mode] 0. *)
Theorem rpc_mode_defaults_to_zero (is_static : bool)
  (d : list (string * value)) (m : method_entry) :
  read_method (VDict d) = Some m ->
  (lookup "rpc_mode" d = None ->
   exists functions,
     _get_functions (VList [VDict d]) is_static = Ok functions
     /\ Forall (fun f => Function.rpc_mode f = VInt 0) functions
     /\ (excluded is_static m = false -> length functions = 1))
  /\ (excluded is_static m = false ->
      (exists f,
          _get_functions (VList [VDict (remove_key "rpc_mode" d)]) is_static
          = Ok [f]
          /\ Function.rpc_mode f = VInt 0)
      /\ forall key,
           In key ["name"; "description"; "signature"; "return_type";
                   "arguments"] ->
           _get_functions (VList [VDict (remove_key key d)]) is_static
           = Err (KeyError key)).
Proof.
  intros Hm. split.
  - intros Hrpc.
    assert (E : Forall2 (fun entry m => read_method entry = Some m)
                  [VDict d] [m]) by (repeat constructor; assumption).
    rewrite (get_functions_read is_static _ _ E). eexists.
    split; [reflexivity|]. cbn [filter].
    assert (Hnone : entry_rpc_mode m = None).
    { revert Hm. unfold read_method.
      destruct (get_str (VDict d) "name"); [|discriminate].
      destruct (get_str (VDict d) "description"); [|discriminate].
      destruct (get_str (VDict d) "signature"); [|discriminate].
      destruct (get_str (VDict d) "return_type"); [|discriminate].
      destruct (getitem (VDict d) "arguments") as [raw|]; [|discriminate].
      destruct (_get_arguments raw); [|discriminate].
      intros [= <-]. cbn [entry_rpc_mode getitem]. now rewrite Hrpc. }
    destruct (excluded is_static m); cbn [negb map]; split;
      try discriminate; try reflexivity; try constructor.
    + unfold function_of. cbn [Function.rpc_mode]. now rewrite Hnone.
    + constructor.
  - intros Hex. split.
    + assert (Hm' : read_method (VDict (remove_key "rpc_mode" d))
                    = Some (mk_method_entry (entry_name m)
                              (entry_description m) (entry_signature m)
                              (entry_return_type m) (entry_arguments m)
                              None)).
      { destruct (read_method_fields _ _ Hm)
          as (arguments & Hn & Hd & Hs & Hr & Ha & Hargs).
        unfold read_method.
        rewrite !get_str_remove_key, !getitem_remove_key.
        cbn [String.eqb Ascii.eqb Bool.eqb].
        now rewrite Hn, Hd, Hs, Hr, Ha, Hargs. }
      assert (E : Forall2 (fun entry m => read_method entry = Some m)
                    [VDict (remove_key "rpc_mode" d)]
                    [mk_method_entry (entry_name m)
                       (entry_description m) (entry_signature m)
                       (entry_return_type m) (entry_arguments m) None])
        by (repeat constructor; assumption).
      rewrite (get_functions_read is_static _ _ E). cbn [filter].
      change (excluded is_static
                (mk_method_entry (entry_name m)
                   (entry_description m) (entry_signature m)
                   (entry_return_type m) (entry_arguments m) None))
        with (excluded is_static m).
      rewrite Hex. cbn [negb map]. eexists. split; reflexivity.
    + intros key Hkey. unfold _get_functions. cbn [iterate bind for_each].
      now rewrite (get_functions_body_without _ _ _ _ Hm Hex Hkey).
Qed.

Lemma rpc_mode_defaults_to_zero_witness :
  (exists f,
      _get_functions
        (VList [method_entry_of "bar" "bar() -> null" "null" "" []]) false
      = Ok [f]
      /\ Function.rpc_mode f = VInt 0)
  /\ _get_functions
       (VList [VDict [ ("name", VStr "bar");
                       ("return_type", VStr "null");
                       ("description", VStr "");
                       ("arguments", VList []) ]]) false
     = Err (KeyError "signature").
Proof.
  destruct (rpc_mode_defaults_to_zero false
              [ ("name", VStr "bar");
                ("signature", VStr "bar() -> null");
                ("return_type", VStr "null");
                ("description", VStr "");
                ("arguments", VList []) ]
              (mk_method_entry "bar" "" "bar() -> null" "null" [] None)
              eq_refl) as [Hdefault Hkeys].
  split.
  - destruct (Hdefault eq_refl) as (functions & E & Hall & Hlen).
    destruct functions as [|f [|g functions]];
      try (specialize (Hlen eq_refl); discriminate Hlen).
    exists f. split; [exact E|]. now inversion Hall.
  - destruct (Hkeys eq_refl) as [_ Hkey].
    apply (Hkey "signature"). simpl. tauto.
Defined.

(** C10, as stated, fails on the entries that are filtered out: the built-in
    callback with a name only and the private method with a name and a
    description only are built without an error, so the absence of their
    other keys is tolerated as well. *)
Lemma get_functions_tolerates_skipped_entries :
  lacks method_ready_only "signature"
  /\ lacks method_ready_only "description"
  /\ _get_functions (VList [method_ready_only]) false = Ok []
  /\ lacks method_helper_only "signature"
  /\ lacks method_helper_only "return_type"
  /\ lacks method_helper_only "arguments"
  /\ _get_functions (VList [method_helper_only]) false = Ok [].
Proof. repeat split. Qed.

(** ** get_grouped_by_category *)

(** C8 (the code differs). [_get_grouped_by] passes the key to [sorted] as a
    second positional argument, so on every collection that is not empty the
    call raises [TypeError] and no group is returned; only the empty
    collection gets its empty list. *)
Theorem get_grouped_by_category_raises :
  GDScriptClasses.get_grouped_by_category [] = Ok []
  /\ forall (c : GDScriptClass.t) (classes : GDScriptClasses.t),
       GDScriptClasses.get_grouped_by_category (c :: classes)
       = Err TypeError.
Proof. split; [reflexivity|]. intros c classes. reflexivity. Qed.

(** With the key given by keyword, as the signature of [sorted] asks, the
    same two calls sort and group the classes by category. *)
Lemma grouping_with_keyword (a b c : GDScriptClass.t) :
  GDScriptClass.category a = "Tools" ->
  GDScriptClass.category b = "Nodes" ->
  GDScriptClass.category c = "Tools" ->
  let get_attribute := GDScriptClass.attrgetter "category" in
  bind (GDScriptClasses.sorted [GDScriptClasses.Iterable [a; b; c]]
          (Some get_attribute))
       (fun data => Ok (GDScriptClasses.groupby data get_attribute))
  = Ok [[b]; [a; c]].
Proof.
  destruct a, b, c. cbn [GDScriptClass.category].
  intros -> -> ->. reflexivity.
Qed.

(** ** The renderer *)

Section RendererProperties.
Context {MM : make_markdown} {HG : hugo}.

Lemma write_members_one (member : Member.t) (output_format : OutputFormats) :
  write_members [member] output_format = write_member output_format member.
Proof. reflexivity. Qed.

(** C6 (the code differs). What [write_members] emits for one member: the
    table, with its rows, stands exactly when the setter is not empty (the
    test reads the setter twice); the getter alone never brings a table. *)
Theorem write_member_table (member : Member.t)
  (output_format : OutputFormats) :
  write_members [member] output_format
  = make_heading (Member.name member) 3
    ++ [code_of output_format (Member.signature member); ""]
    ++ (if nonempty (Member.setter member)
        then [make_table_row ["Setter"; Member.setter member]]
             ++ (if nonempty (Member.getter member)
                 then [make_table_row ["Getter"; Member.getter member]]
                 else [])
             ++ [""]
        else [])
    ++ [Member.description member].
Proof.
  rewrite write_members_one. unfold write_member.
  destruct (nonempty (Member.setter member)),
    (nonempty (Member.getter member)); cbn [orb app];
    rewrite <- ?app_assoc; reflexivity.
Qed.

(** A dialect that is not [HUGO] renders the code as [MARDKOWN] does. *)
Lemma body_of_other (gdscript : GDScriptClass.t) (v : value)
  (extends : string) :
  body_of gdscript (OTHER v) extends = body_of gdscript MARDKOWN extends.
Proof. reflexivity. Qed.

(** C7 (amended). [as_markdown] has no error for the dialect: for options
    whose dialect is neither [MARDKOWN] nor [HUGO] it returns a document
    whenever it does for [MARDKOWN], made of the same lines without the
    level-1 title heading (no front matter, fenced code blocks). *)
Theorem as_markdown_unknown_dialect (gdscript : GDScriptClass.t)
  (arguments : Namespace) (plain : MarkdownDocument) :
  format arguments <> MARDKOWN ->
  format arguments <> HUGO ->
  as_markdown gdscript (mkNamespace MARDKOWN (settings arguments))
  = Ok plain ->
  exists doc notice heading rest,
    as_markdown gdscript arguments = Ok doc
    /\ title doc = title plain
    /\ notice = (make_comment auto_generated_notice ++ PyStr.nl)%string
    /\ heading
       = make_heading
           (if PyStr.contains (GDScriptClass.tags gdscript) "abstract"
            then (GDScriptClass.name gdscript ++ " "
                  ++ surround_with_html "(abstract)" "small")%string
            else GDScriptClass.name gdscript) 1
    /\ content plain = [notice] ++ heading ++ rest
    /\ content doc = [notice] ++ rest.
Proof.
  intros Hm Hh. destruct arguments as [[| |v] settings];
    cbn [format] in *; try congruence.
  unfold as_markdown. cbn [format is_HUGO is_MARDKOWN app].
  destruct (GDScriptClass.extends_as_string gdscript) as [extends|];
    cbn [bind]; [|discriminate].
  intros [= <-]. do 4 eexists. cbn [title content].
  repeat split.
Qed.

(** C9. A class without members, signals and enumerations: the contents of
    the Properties, Signals and Enumerations sections are empty, so these
    sections give no line, and the document is the front matter (augmented
    dialect), the notice, the title (plain dialect), the Extends line and
    the Description, Methods and Method Descriptions sections.  The content
    of Methods starts with the table header whatever the functions are, and
    is the header alone for a class without functions; with a header of at
    least one line the section is never omitted. *)
Theorem as_markdown_without_members (gdscript : GDScriptClass.t)
  (arguments : Namespace) :
  GDScriptClass.members gdscript = [] ->
  GDScriptClass.signals gdscript = [] ->
  GDScriptClass.enums gdscript = [] ->
  let output_format := format arguments in
  let header := make_table_header ["Type"; "Name"] in
  let rows :=
    map (fun f => make_table_row [Function.return_type f; Function.signature f])
        (GDScriptClass.functions gdscript) in
  let name :=
    if PyStr.contains (GDScriptClass.tags gdscript) "abstract"
    then (GDScriptClass.name gdscript ++ " "
          ++ surround_with_html "(abstract)" "small")%string
    else GDScriptClass.name gdscript in
  let top :=
    (if is_HUGO output_format then front_matter gdscript arguments else [])
    ++ [(make_comment auto_generated_notice ++ PyStr.nl)%string]
    ++ (if is_MARDKOWN output_format then make_heading name 1 else []) in
  summarize_members gdscript = []
  /\ write_signals (GDScriptClass.signals gdscript) = []
  /\ write_enums (GDScriptClass.enums gdscript) output_format = []
  /\ MarkdownSection.as_text "Properties" 2 (summarize_members gdscript) = []
  /\ MarkdownSection.as_text "Signals" 2
       (write_signals (GDScriptClass.signals gdscript)) = []
  /\ MarkdownSection.as_text "Enumerations" 2
       (write_enums (GDScriptClass.enums gdscript) output_format) = []
  /\ summarize_methods gdscript = header ++ rows
  /\ (GDScriptClass.functions gdscript = [] ->
      summarize_methods gdscript = header)
  /\ (header <> [] ->
      MarkdownSection.as_text "Methods" 2 (summarize_methods gdscript)
      = make_heading "Methods" 2 ++ header ++ rows)
  /\ (forall extends,
         GDScriptClass.extends_as_string gdscript = Ok extends ->
         as_markdown gdscript arguments
         = Ok (mkMarkdownDocument (GDScriptClass.name gdscript)
                 (top
                  ++ [(make_bold "Extends:" ++ " " ++ extends)%string]
                  ++ MarkdownSection.as_text "Description" 2
                       [GDScriptClass.description gdscript]
                  ++ MarkdownSection.as_text "Methods" 2 (header ++ rows)
                  ++ MarkdownSection.as_text "Method Descriptions" 2
                       (write_functions (GDScriptClass.functions gdscript)
                          output_format)))).
Proof.
  intros Hmembers Hsignals Henums output_format header rows name top.
  assert (Hsm : summarize_members gdscript = [])
    by (unfold summarize_members; now rewrite Hmembers).
  assert (Hmethods : summarize_methods gdscript = header ++ rows)
    by reflexivity.
  rewrite Hsm, Hsignals, Henums.
  repeat apply conj; try reflexivity.
  - intros Hf. rewrite Hmethods. unfold rows. rewrite Hf. apply app_nil_r.
  - intros Hheader. rewrite Hmethods. unfold MarkdownSection.as_text.
    destruct header as [|h header'] eqn:E; [congruence|]. reflexivity.
  - intros extends Hextends. unfold as_markdown. rewrite Hextends.
    cbn [bind]. f_equal. f_equal. fold output_format name.
    unfold body_of. rewrite Hsm, Hsignals, Henums, Hmembers, Hmethods.
    unfold top. cbn [MarkdownSection.as_text write_members fold_left].
    destruct (is_HUGO output_format), (is_MARDKOWN output_format);
      cbn [app]; rewrite <- ?app_assoc; reflexivity.
Qed.

End RendererProperties.

(** C6, on the sample formatting: the member with a getter and no setter is
    rendered without the Getter row. *)
Lemma write_members_getter_only :
  @write_members plain_markdown plain_hugo [member_speed] MARDKOWN
  = ["### speed"; "";
     ("```gdscript" ++ PyStr.nl ++ "var speed: float" ++ PyStr.nl ++ "```")%string;
     ""; "The speed."]
  /\ ~ In (@make_table_row plain_markdown ["Getter"; "get_speed"])
         (@write_members plain_markdown plain_hugo [member_speed] MARDKOWN).
Proof.
  split; [reflexivity|]. vm_compute. intros H.
  repeat (destruct H as [H|H]; [discriminate H|]). exact H.
Qed.

(** C7, as stated, fails on the sample class: the unknown dialect gets a
    document. *)
Lemma as_markdown_other_format_is_ok :
  exists doc,
    @as_markdown plain_markdown plain_hugo class_foo
      (mkNamespace other_format [])
    = Ok doc
    /\ In "## Methods" (content doc).
Proof. eexists. split; [reflexivity|]. vm_compute. tauto. Qed.

Lemma as_markdown_unknown_dialect_witness :
  exists doc notice heading rest,
    @as_markdown plain_markdown plain_hugo class_foo
      (mkNamespace other_format [])
    = Ok doc
    /\ heading = ["# Foo"; ""]
    /\ (exists plain,
           @as_markdown plain_markdown plain_hugo class_foo
             (mkNamespace MARDKOWN [])
           = Ok plain
           /\ content plain = [notice] ++ heading ++ rest)
    /\ content doc = [notice] ++ rest.
Proof.
  destruct (@as_markdown plain_markdown plain_hugo class_foo
              (mkNamespace MARDKOWN [])) as [plain|] eqn:E;
    [|discriminate E].
  destruct (@as_markdown_unknown_dialect plain_markdown plain_hugo class_foo
              (mkNamespace other_format []) plain)
    as (doc & notice & heading & rest & Hdoc & _ & _ & Hh & Hp & Hc).
  - discriminate.
  - discriminate.
  - exact E.
  - exists doc, notice, heading, rest. repeat split; try assumption.
    exists plain. now split.
Defined.

Lemma as_markdown_without_members_witness :
  @MarkdownSection.as_text plain_markdown "Methods" 2
    (@summarize_methods plain_markdown class_empty)
  = ["## Methods"; ""; "Type | Name"; "--- | ---"]
  /\ exists doc,
       @as_markdown plain_markdown plain_hugo class_empty
         (mkNamespace MARDKOWN [])
       = Ok doc
       /\ In "## Methods" (content doc)
       /\ ~ In "## Properties" (content doc)
       /\ ~ In "## Signals" (content doc)
       /\ ~ In "## Enumerations" (content doc).
Proof.
  destruct (@as_markdown_without_members plain_markdown plain_hugo
              class_empty (mkNamespace MARDKOWN []) eq_refl eq_refl eq_refl)
    as (_ & _ & _ & _ & _ & _ & _ & _ & Hmethods & Hdoc).
  split; [apply Hmethods; discriminate|].
  eexists. split; [exact (Hdoc "Node" eq_refl)|].
  cbn [content]. vm_compute.
  split; [tauto|].
  repeat split; intros H;
    repeat (destruct H as [H|H]; [discriminate H|]); exact H.
Defined.

(** ** Missing keys *)


Lemma mapM_ok_inv {A B : Type} (f : A -> result B) (xs : list A)
  (ys : list B) :
  mapM f xs = Ok ys -> Forall (fun x => exists y, f x = Ok y) xs.
Proof.
  revert ys; induction xs as [|x xs IH]; intros ys H; [constructor|].
  cbn [mapM] in H. bind_ok H. bind_ok H.
  constructor; [eexists; first [reflexivity|eassumption] | eapply IH; reflexivity].
Qed.


Lemma mapM_err_inv {A B : Type} (f : A -> result B) (xs : list A)
  (e : error) :
  mapM f xs = Err e -> Exists (fun x => f x = Err e) xs.
Proof.
  induction xs as [|x xs IH]; intros H; [discriminate|].
  cbn [mapM] in H. bind_err H.
  - bind_err H; [discriminate|]. apply Exists_cons_tl. now apply IH.
  - now apply Exists_cons_hd.
Qed.

Lemma getitem_key_error (entry : value) (key key' : string) :
  getitem entry key = Err (KeyError key') -> key' = key /\ lacks entry key'.
Proof.
  unfold lacks. destruct entry; try discriminate. simpl.
  destruct (lookup key d) eqn:E; [discriminate|].
  intros [= <-]. now rewrite E.
Qed.

Lemma get_str_key_error (entry : value) (key key' : string) :
  get_str entry key = Err (KeyError key') -> key' = key /\ lacks entry key'.
Proof.
  unfold get_str. intros H. bind_err H.
  - destruct a; discriminate.
  - now apply getitem_key_error.
Qed.

Lemma get_str_present (entry : value) (key s : string) :
  get_str entry key = Ok s -> present entry key.
Proof.
  unfold get_str, present. intros H. bind_ok H. now eexists.
Qed.

Lemma getitem_present (entry : value) (key : string) (v : value) :
  getitem entry key = Ok v -> present entry key.
Proof. intros H. now exists v. Qed.



Create HintDb keys.
#[local] Hint Resolve get_str_present getitem_present : keys.

(** *** A build that succeeds has read every key *)










(** *** A [KeyError] names a key that is absent *)

Lemma read_key_error (entry : value) (key key' : string) :
  get_str entry key = Err (KeyError key')
  \/ getitem entry key = Err (KeyError key') ->
  lacks entry key'.
Proof.
  intros [H|H];
    [apply get_str_key_error in H | apply getitem_key_error in H]; tauto.
Qed.

#[local] Hint Resolve read_key_error : keys.








(** *** A record that builds, with one key taken out *)






















(** ** More on get_metadata *)

Lemma join_cons_char (sep : string) (c : ascii) (h : string)
  (t : list string) :
  PyStr.join sep (String c h :: t) = String c (PyStr.join sep (h :: t)).
Proof. now destruct t. Qed.

(** Splitting on a character and joining with it gives the string back. *)
Lemma join_split (s : string) (sep : ascii) :
  PyStr.join (String sep "") (PyStr.split s sep) = s.
Proof.
  induction s as [|c s IH]; [reflexivity|].
  cbn [PyStr.split]. destruct (Ascii.eqb_spec c sep) as [->|_].
  - destruct (PyStr.split s sep) as [|h t] eqn:E;
      [now destruct (split_not_nil s sep)|].
    change (PyStr.join (String sep "") ("" :: h :: t))
      with (String sep (PyStr.join (String sep "") (h :: t))).
    now rewrite IH.
  - destruct (PyStr.split s sep) as [|h t] eqn:E;
      [now destruct (split_not_nil s sep)|].
    now rewrite join_cons_char, IH.
Qed.

Lemma length_split (s : string) (sep : ascii) :
  length (PyStr.split s sep) = S (count_char sep s).
Proof.
  induction s as [|c s IH]; [reflexivity|].
  cbn [PyStr.split count_char]. destruct (Ascii.eqb c sep).
  - simpl. now rewrite IH.
  - destruct (PyStr.split s sep) as [|h t]; [discriminate IH|].
    simpl in *. assumption.
Qed.

Lemma fold_unmatched {A : Type} (p : string -> bool) (f : string -> A)
  (xs : list string) (a : A) :
  existsb p xs = false ->
  fold_left (fun acc l => if p l then f l else acc) xs a = a.
Proof.
  revert a; induction xs as [|x xs IH]; intros a H; [reflexivity|].
  simpl in H. apply orb_false_iff in H as [Hx Hxs].
  cbn [fold_left]. rewrite Hx. now apply IH.
Qed.

Lemma filter_all {A : Type} (p : A -> bool) (xs : list A) :
  existsb p xs = false -> filter (fun x => negb (p x)) xs = xs.
Proof.
  induction xs as [|x xs IH]; intros H; [reflexivity|].
  simpl in H. apply orb_false_iff in H as [Hx Hxs].
  simpl. rewrite Hx. simpl. now rewrite IH.
Qed.

Lemma existsb_metadata_false (lines : list string) :
  existsb is_metadata_line lines = false ->
  existsb is_tags_line lines = false
  /\ existsb is_category_line lines = false.
Proof.
  induction lines as [|l lines IH]; intros H; [now split|].
  simpl in H. apply orb_false_iff in H as [Hl Hlines].
  unfold is_metadata_line in Hl. apply orb_false_iff in Hl as [Ht Hc].
  destruct (IH Hlines) as [IHt IHc]. simpl. now rewrite Ht, Hc, IHt, IHc.
Qed.

(** A description without a metadata line comes back as it is. *)
Lemma get_metadata_plain (description : string) :
  existsb is_metadata_line (PyStr.split description PyStr.newline) = false ->
  get_metadata description = (description, [], "").
Proof.
  intros H. unfold get_metadata. rewrite get_metadata_loop.
  destruct (existsb_metadata_false _ H) as [Ht Hc].
  rewrite (fold_unmatched is_tags_line _ _ _ Ht).
  rewrite (fold_unmatched is_category_line _ _ _ Hc).
  cbn [app]. rewrite (filter_all _ _ H).
  unfold PyStr.nl. now rewrite join_split.
Qed.

Lemma kept_lines_no_metadata (description : string) :
  existsb is_metadata_line
    (PyStr.split (fst (fst (get_metadata description))) PyStr.newline)
  = false.
Proof.
  unfold get_metadata. rewrite get_metadata_loop. cbn [fst app].
  pose proof (kept_lines_survive
                (PyStr.split description PyStr.newline)
                (split_parts_without_sep description PyStr.newline)) as H.
  induction H as [|l ls Hl _ IH]; [reflexivity|].
  simpl. now rewrite Hl, IH.
Qed.

(** X1. A description with no line that starts (stripped, in any case)
    with [tags:] or [category:] is returned unchanged, character for
    character, with no tag and the empty category. *)
Theorem get_metadata_without_metadata (description : string) :
  existsb is_metadata_line (PyStr.split description PyStr.newline) = false ->
  get_metadata description = (description, [], "").
Proof. exact (get_metadata_plain description). Qed.

Lemma get_metadata_without_metadata_witness :
  get_metadata description_without_metadata
  = (description_without_metadata, [], "").
Proof.
  apply (get_metadata_without_metadata description_without_metadata).
  reflexivity.
Defined.

(** X2. For every description, no line of the description that
    [get_metadata] returns is a metadata line, and [get_metadata] leaves the
    returned description as it is: extracting twice strips nothing more. *)
Theorem get_metadata_idempotent (description : string) :
  let kept := fst (fst (get_metadata description)) in
  Forall (fun l => is_metadata_line l = false)
    (PyStr.split kept PyStr.newline)
  /\ get_metadata kept = (kept, [], "").
Proof.
  intros kept. pose proof (kept_lines_no_metadata description) as H.
  fold kept in H. split; [|now apply get_metadata_plain].
  apply Forall_forall. intros l Hl.
  destruct (is_metadata_line l) eqn:E; [|reflexivity].
  assert (existsb is_metadata_line (PyStr.split kept PyStr.newline) = true)
    by (apply existsb_exists; now exists l).
  congruence.
Qed.

(** X3. When the description has a tags line, the returned list of tags has
    one entry more than the text after the colon of the last tags line has
    commas: it is never empty, and a tags line with nothing after its colon
    gives one empty tag. *)
Theorem get_metadata_tags_count (description : string) :
  let lines := PyStr.split description PyStr.newline in
  existsb is_tags_line lines = true ->
  exists tags_line,
    last_such is_tags_line lines tags_line
    /\ length (extracted_tags description)
       = S (count_char PyStr.comma (after_colon tags_line))
    /\ extracted_tags description <> []
    /\ (after_colon tags_line = "" -> extracted_tags description = [""]).
Proof.
  intros lines H. destruct (existsb_last_such _ _ H) as (tl & Htl).
  exists tl. split; [assumption|].
  assert (E : extracted_tags description
              = map PyStr.strip (PyStr.split (after_colon tl) PyStr.comma)).
  { unfold extracted_tags, get_metadata. fold lines.
    rewrite get_metadata_loop. cbn [fst snd].
    exact (fold_last_such is_tags_line
             (fun l => map PyStr.strip
                         (PyStr.split (after_colon l) PyStr.comma))
             lines tl [] Htl). }
  rewrite E. repeat split.
  - now rewrite length_map, length_split.
  - intros Hnil. apply (f_equal (@length string)) in Hnil.
    rewrite length_map, length_split in Hnil. discriminate.
  - now intros ->.
Qed.

Lemma get_metadata_tags_count_witness :
  exists tags_line,
    last_such is_tags_line
      (PyStr.split description_empty_tags PyStr.newline) tags_line
    /\ extracted_tags description_empty_tags = [""].
Proof.
  destruct (get_metadata_tags_count description_empty_tags eq_refl)
    as (tl & Htl & _ & _ & _).
  exists tl. split; [assumption|reflexivity].
Defined.

(** ** More on strip *)

Lemma rstrip_with_idempotent (p : ascii -> bool) (s : string) :
  PyStr.rstrip_with p (PyStr.rstrip_with p s) = PyStr.rstrip_with p s.
Proof.
  induction s as [|c s IH]; [reflexivity|].
  cbn [PyStr.rstrip_with].
  destruct (PyStr.rstrip_with p s) as [|c' r] eqn:E.
  - destruct (p c) eqn:Hc; [reflexivity|].
    cbn [PyStr.rstrip_with]. now rewrite Hc.
  - change (PyStr.rstrip_with p (String c (String c' r)))
      with (match PyStr.rstrip_with p (String c' r) with
            | EmptyString => if p c then EmptyString else String c EmptyString
            | String a r0 => String c (String a r0)
            end).
    now rewrite IH.
Qed.

(** Stripping twice is stripping once. *)
Lemma strip_with_idempotent (p : ascii -> bool) (s : string) :
  PyStr.strip_with p (PyStr.strip_with p s) = PyStr.strip_with p s.
Proof.
  unfold PyStr.strip_with.
  pose proof (lstrip_with_head p s) as H.
  destruct (PyStr.lstrip_with p s) as [|c t]; [reflexivity|].
  destruct (rstrip_with_keeps_head p c t H) as (r & E).
  rewrite E. cbn [PyStr.lstrip_with]. rewrite H, <- E.
  apply rstrip_with_idempotent.
Qed.

(** ** More on _get_functions *)

Lemma for_each_outputs {A B : Type} (body : A -> result (option B))
  (xs : list A) (ys : list B) :
  for_each body xs = Ok ys ->
  Forall (fun y => exists x, In x xs /\ body x = Ok (Some y)) ys.
Proof.
  revert ys; induction xs as [|x xs IH]; intros ys H.
  - injection H as <-. constructor.
  - cbn [for_each] in H.
    destruct (body x) as [o|] eqn:Hx; [|discriminate H].
    destruct (for_each body xs) as [zs|] eqn:Hxs; [|discriminate H].
    cbn [bind] in H. injection H as <-.
    assert (Hzs : Forall (fun y => exists x0,
                              In x0 (x :: xs) /\ body x0 = Ok (Some y)) zs).
    { eapply Forall_impl; [|exact (IH zs eq_refl)].
      intros y (x0 & Hin & Hy). exists x0. split; [now right|assumption]. }
    destruct o as [y|]; [|assumption].
    constructor; [|assumption]. exists x. split; [now left|assumption].
Qed.

Lemma for_each_app {A B : Type} (body : A -> result (option B))
  (xs ys : list A) :
  for_each body (xs ++ ys)
  = (let* a := for_each body xs in
     let* b := for_each body ys in
     Ok (a ++ b)).
Proof.
  induction xs as [|x xs IH]; cbn [app for_each bind].
  - now destruct (for_each body ys).
  - destruct (body x) as [o|]; [|reflexivity]. cbn [bind].
    rewrite IH. destruct (for_each body xs) as [a|]; [|reflexivity].
    cbn [bind]. destruct (for_each body ys) as [b|]; [|reflexivity].
    cbn [bind]. now destruct o.
Qed.

Lemma mapM_app {A B : Type} (f : A -> result B) (xs ys : list A) :
  mapM f (xs ++ ys)
  = (let* a := mapM f xs in
     let* b := mapM f ys in
     Ok (a ++ b)).
Proof.
  induction xs as [|x xs IH]; cbn [app mapM bind].
  - now destruct (mapM f ys).
  - destruct (f x) as [y|]; [|reflexivity]. cbn [bind].
    rewrite IH. destruct (mapM f xs) as [a|]; [|reflexivity].
    cbn [bind]. now destruct (mapM f ys).
Qed.

(** What holds of every Function the body of the loop gives, whatever the
    entry is. *)
Lemma get_functions_body_some (is_static : bool) (entry : value)
  (f : Function.t) :
  _get_functions_body is_static entry = Ok (Some f) ->
  get_str entry "name" = Ok (Function.name f)
  /\ (exists raw,
         get_str entry "description" = Ok raw
         /\ Function.tags f = extracted_tags raw)
  /\ PyStr.contains BUILTIN_VIRTUAL_CALLBACKS (Function.name f) = false
  /\ Function.kind f
     = (if is_static then STATIC
        else if PyStr.contains (Function.tags f) "virtual" then VIRTUAL
             else METHOD)
  /\ (PyStr.startswith (Function.name f) "_" = true ->
      is_static = false
      /\ PyStr.contains (Function.tags f) "virtual" = true)
  /\ (Function.name f = TYPE_CONSTRUCTOR -> Function.arguments f <> [])
  /\ PyStr.strip_space_newline (Function.description f)
     = Function.description f.
Proof.
  unfold _get_functions_body. intros H.
  bind_ok H. rename a into name, E into Hname.
  destruct (PyStr.contains BUILTIN_VIRTUAL_CALLBACKS name) eqn:Hb;
    [discriminate|].
  bind_ok H. rename a into no_arguments, E into Hno.
  destruct no_arguments; [discriminate|].
  bind_ok H. rename a into raw, E into Hraw.
  unfold extracted_tags.
  destruct (get_metadata raw) as [[text tags] category] eqn:Hm.
  cbv beta iota in H.
  destruct (PyStr.startswith name "_"
            && negb (PyStr.contains tags "virtual" && negb is_static))
    eqn:Hp; [discriminate|].
  bind_ok H. bind_ok H.
  bind_ok H. rename a1 into raw_arguments, E1 into Hargs.
  bind_ok H. rename a1 into arguments, E1 into Harguments.
  bind_ok H. bind_ok H.
  injection H as <-.
  cbn [Function.name Function.tags Function.kind Function.arguments
       Function.description].
  repeat apply conj; try reflexivity; try assumption.
  - exists raw. now rewrite Hm.
  - destruct is_static, (PyStr.contains tags "virtual"); reflexivity.
  - intros Hu. rewrite Hu in Hp.
    destruct is_static, (PyStr.contains tags "virtual");
      try discriminate Hp; now split.
  - intros ->. rewrite String.eqb_refl in Hno.
    cbn [bind] in Hno. injection Hno as Hno.
    apply negb_false_iff in Hno.
    rewrite (get_arguments_truthy _ _ Harguments) in Hno.
    now destruct arguments.
  - apply strip_with_idempotent.
Qed.

Lemma get_functions_outputs (data : value) (is_static : bool)
  (functions : list Function.t) :
  _get_functions data is_static = Ok functions ->
  Forall (fun f => exists entry,
              _get_functions_body is_static entry = Ok (Some f)) functions.
Proof.
  unfold _get_functions. intros H. bind_ok H.
  eapply Forall_impl; [|exact (for_each_outputs _ _ _ H)].
  intros f (entry & _ & Hf). now exists entry.
Qed.

(** X4. What [_get_functions] never returns, whatever the entries are: a
    Function with the name of a built-in callback; a Function with a
    leading underscore that is not tagged [virtual] or that comes from the
    static-functions list (so a static function with a leading underscore
    is never documented, tagged or not); a constructor [_init] without
    arguments. *)
Theorem get_functions_never (data : value) (is_static : bool)
  (functions : list Function.t) :
  _get_functions data is_static = Ok functions ->
  Forall (fun f =>
            PyStr.contains BUILTIN_VIRTUAL_CALLBACKS (Function.name f) = false
            /\ (PyStr.startswith (Function.name f) "_" = true ->
                is_static = false
                /\ PyStr.contains (Function.tags f) "virtual" = true
                /\ Function.kind f = VIRTUAL)
            /\ (Function.name f = "_init" -> Function.arguments f <> []))
    functions.
Proof.
  intros H. eapply Forall_impl; [|exact (get_functions_outputs _ _ _ H)].
  intros f (entry & Hf).
  destruct (get_functions_body_some _ _ _ Hf)
    as (_ & _ & Hb & Hk & Hu & Hi & _).
  split; [assumption|]. split; [|assumption].
  intros Hunder. destruct (Hu Hunder) as [-> Hv].
  rewrite Hk, Hv. now repeat split.
Qed.

Lemma get_functions_never_witness :
  exists statics,
    _get_functions
      (VList (entries_under record_with_statics "static_functions")) true
    = Ok statics
    /\ map Function.name statics = ["make"]
    /\ Forall (fun f => PyStr.startswith (Function.name f) "_" = false)
         statics.
Proof.
  destruct (_get_functions
              (VList (entries_under record_with_statics "static_functions"))
              true) as [statics|] eqn:E; [|discriminate E].
  exists statics. split; [reflexivity|]. split.
  - vm_compute in E. now injection E as <-.
  - eapply Forall_impl; [|exact (get_functions_never _ _ _ E)].
    intros f (_ & Hu & _).
    destruct (PyStr.startswith (Function.name f) "_"); [|reflexivity].
    now destruct (Hu eq_refl).
Defined.

(** X5. The converters work entry by entry: the result for a list made of
    two parts is the result for the first part followed by the result for
    the second, and the first error met, in the order of the entries, is the
    error of the whole. *)
Theorem converters_of_concatenation (a b : list value) (is_static : bool) :
  _get_functions (VList (a ++ b)) is_static
  = (let* fa := _get_functions (VList a) is_static in
     let* fb := _get_functions (VList b) is_static in
     Ok (fa ++ fb))
  /\ _get_members (VList (a ++ b))
     = (let* ma := _get_members (VList a) in
        let* mb := _get_members (VList b) in
        Ok (ma ++ mb))
  /\ _get_signals (VList (a ++ b))
     = (let* sa := _get_signals (VList a) in
        let* sb := _get_signals (VList b) in
        Ok (sa ++ sb))
  /\ enums_of_constants (VList (a ++ b))
     = (let* ea := enums_of_constants (VList a) in
        let* eb := enums_of_constants (VList b) in
        Ok (ea ++ eb)).
Proof.
  unfold _get_functions, _get_members, _get_signals, enums_of_constants.
  cbn [iterate bind]. repeat split; first [apply for_each_app|apply mapM_app].
Qed.

(** ** _get_members, _get_signals and the constants *)

Lemma get_members_body_read (entry : value) (m : member_entry) :
  read_member entry = Some m ->
  _get_members_body entry
  = Ok (if PyStr.startswith (member_name m) "_" then None
        else Some (Member.mk (member_signature m) (member_name m)
                     (PyStr.strip_space_newline
                        (fst (fst (get_metadata (member_description m)))))
                     (member_data_type m) (member_default_value m)
                     (member_export m) (member_setter m) (member_getter m)
                     (extracted_tags (member_description m)))).
Proof.
  unfold read_member.
  destruct (get_str entry "name") as [name|] eqn:Hn; [|discriminate].
  destruct (get_str entry "description") as [description|] eqn:Hd;
    [|discriminate].
  destruct (get_str entry "signature") as [signature|] eqn:Hs;
    [|discriminate].
  destruct (get_str entry "data_type") as [data_type|] eqn:Ht;
    [|discriminate].
  destruct (getitem entry "default_value") as [default_value|] eqn:Hv;
    [|discriminate].
  destruct (getitem entry "export") as [export|] eqn:He; [|discriminate].
  destruct (get_str entry "setter") as [setter|] eqn:Hset; [|discriminate].
  destruct (get_str entry "getter") as [getter|] eqn:Hget; [|discriminate].
  intros [= <-]. unfold _get_members_body, extracted_tags.
  cbn [member_name member_description member_signature member_data_type
       member_default_value member_export member_setter member_getter].
  rewrite Hn. cbn [bind].
  destruct (PyStr.startswith name "_"); [reflexivity|].
  rewrite Hd. cbn [bind].
  destruct (get_metadata description) as [[text tags] category].
  cbn [fst snd]. rewrite Hs, Ht, Hv, He, Hset, Hget. reflexivity.
Qed.

(** X6. Of a list of raw member entries, [_get_members] leaves out exactly
    those whose name starts with an underscore, tagged [virtual] or not,
    and turns each other one, in order, into a Member with its fields, the
    tags of its description, and its description without the metadata lines
    and without spaces and newlines at its ends. *)
Theorem get_members_public (entries : list value) (ms : list member_entry) :
  Forall2 (fun entry m => read_member entry = Some m) entries ms ->
  exists members,
    _get_members (VList entries) = Ok members
    /\ Forall2 (fun m member =>
                  Member.name member = member_name m
                  /\ Member.signature member = member_signature m
                  /\ Member.type member = member_data_type m
                  /\ Member.default_value member = member_default_value m
                  /\ Member.is_exported member = member_export m
                  /\ Member.setter member = member_setter m
                  /\ Member.getter member = member_getter m
                  /\ Member.tags member
                     = extracted_tags (member_description m)
                  /\ Member.description member
                     = PyStr.strip_space_newline
                         (fst (fst (get_metadata (member_description m))))
                  /\ edge_free PyStr.space_or_newline
                       (Member.description member))
         (filter (fun m => negb (PyStr.startswith (member_name m) "_")) ms)
         members.
Proof.
  intros H. eexists. split.
  - unfold _get_members. cbn [iterate bind].
    apply (for_each_read _ read_member
             (fun m => negb (PyStr.startswith (member_name m) "_")));
      [|exact H].
    intros x c Hx. rewrite (get_members_body_read _ _ Hx).
    destruct (PyStr.startswith (member_name c) "_"); reflexivity.
  - apply Forall2_map_filter. intros m _.
    cbn [Member.name Member.signature Member.type Member.default_value
         Member.is_exported Member.setter Member.getter Member.tags
         Member.description].
    repeat split; try apply strip_with_edge_free.
Qed.

Lemma get_members_public_witness :
  exists members,
    _get_members (VList sample_members) = Ok members
    /\ map Member.name members = ["speed"; "size"]
    /\ map Member.description members = ["The speed."; "The size."]
    /\ map Member.tags members = [[]; ["a"; "b"]].
Proof.
  assert (Hread : exists ms,
             Forall2 (fun entry m => read_member entry = Some m)
               sample_members ms).
  { eexists. unfold sample_members.
    repeat (apply Forall2_cons; [vm_compute; reflexivity|]).
    apply Forall2_nil. }
  destruct Hread as (ms & Hms).
  destruct (get_members_public sample_members ms Hms) as (members & E & _).
  exists members. split; [exact E|].
  vm_compute in E. injection E as <-. repeat split.
Defined.

Lemma mapM_Forall2 {A B : Type} (f : A -> result B) (xs : list A)
  (ys : list B) :
  mapM f xs = Ok ys <-> Forall2 (fun x y => f x = Ok y) xs ys.
Proof.
  revert ys; induction xs as [|x xs IH]; intros ys; split; intros H.
  - injection H as <-. constructor.
  - now inversion H.
  - cbn [mapM] in H.
    destruct (f x) as [y|] eqn:Hx; [|discriminate H].
    destruct (mapM f xs) as [zs|]; [|discriminate H].
    cbn [bind] in H. injection H as <-.
    constructor; [exact Hx|]. now apply IH.
  - inversion H as [|? y ? ys' Hx Hxs]; subst. cbn [mapM].
    rewrite Hx. cbn [bind]. apply IH in Hxs. now rewrite Hxs.
Qed.

(** X7. [_get_signals] filters nothing and checks nothing: its result is
    a list of Signals exactly when, entry by entry and in order, each Signal
    holds the values under [signature], [name], [description] and
    [arguments] of its entry, as they are, whatever their types; there are
    as many Signals as entries, and the description of a signal is neither
    searched for metadata nor stripped. *)
Theorem get_signals_all (entries : list value) :
  (forall signals,
      _get_signals (VList entries) = Ok signals <->
      Forall2 (fun entry s =>
                 getitem entry "signature" = Ok (Signal.signature s)
                 /\ getitem entry "name" = Ok (Signal.name s)
                 /\ getitem entry "description" = Ok (Signal.description s)
                 /\ getitem entry "arguments" = Ok (Signal.arguments s))
        entries signals)
  /\ (forall signals,
         _get_signals (VList entries) = Ok signals ->
         length signals = length entries).
Proof.
  assert (Hiff : forall signals,
             _get_signals (VList entries) = Ok signals <->
             Forall2 (fun entry s =>
                        getitem entry "signature" = Ok (Signal.signature s)
                        /\ getitem entry "name" = Ok (Signal.name s)
                        /\ getitem entry "description"
                           = Ok (Signal.description s)
                        /\ getitem entry "arguments"
                           = Ok (Signal.arguments s))
               entries signals).
  { intros signals. unfold _get_signals. cbn [iterate bind].
    rewrite mapM_Forall2. split; intros H;
      (eapply Forall2_impl; [|exact H]); intros entry s Hs; cbv beta in *.
    - bind_ok Hs. bind_ok Hs. bind_ok Hs. bind_ok Hs.
      injection Hs as <-. now repeat split.
    - destruct Hs as (-> & -> & -> & ->). now destruct s. }
  split; [exact Hiff|].
  intros signals H. apply Hiff in H. symmetry.
  exact (Forall2_length H).
Qed.

Lemma is_dictionary_constant_present (entry : value) :
  present entry "data_type" ->
  is_dictionary_constant entry = Ok (is_dictionary entry).
Proof.
  intros (v & Hv). unfold is_dictionary, is_dictionary_constant.
  now rewrite Hv.
Qed.

(** X8. Of a list of constants that all have a data type,
    [GDScriptClass.from_dict] turns those whose data type is the string
    [Dictionary] into Enumerations, in order, and leaves the others out
    without reading any other key of them: a scalar constant needs its data
    type only. *)
Theorem enums_only_dictionaries (entries : list value) :
  Forall (fun entry =>
            present entry "data_type"
            /\ (is_dictionary entry = true ->
                exists e, Enumeration.from_dict entry = Ok e)) entries ->
  exists enums,
    enums_of_constants (VList entries) = Ok enums
    /\ Forall2 (fun entry e => Enumeration.from_dict entry = Ok e)
         (filter is_dictionary entries) enums.
Proof.
  unfold enums_of_constants. cbn [iterate bind].
  induction 1 as [|entry entries [Hp He] _ (enums & E & IH)].
  - exists []. split; [reflexivity|constructor].
  - cbn [for_each filter].
    rewrite (is_dictionary_constant_present _ Hp). cbn [bind].
    destruct (is_dictionary entry).
    + destruct (He eq_refl) as (e & Hle). rewrite Hle. cbn [bind].
      rewrite E. cbn [bind]. exists (e :: enums).
      split; [reflexivity|now constructor].
    + cbn [bind]. rewrite E. cbn [bind]. now exists enums.
Qed.

Lemma enums_only_dictionaries_witness :
  exists enums,
    enums_of_constants (VList sample_constants) = Ok enums
    /\ map Enumeration.name enums = ["Mode"].
Proof.
  destruct (enums_only_dictionaries sample_constants) as (enums & E & _).
  - unfold sample_constants. repeat constructor;
      try (eexists; reflexivity); try discriminate.
  - exists enums. split; [exact E|].
    vm_compute in E. now injection E as <-.
Defined.

(** ** More on GDScriptClass.from_dict *)

(** X9. The class built from a record depends on the values under its nine
    keys only: two dicts that agree on them give the same result, or the
    same error, whatever other keys they hold and in whatever order. *)
Theorem from_dict_reads_nine_keys (d d' : list (string * value)) :
  (forall key, In key ("name" :: class_keys) ->
               lookup key d = lookup key d') ->
  GDScriptClass.from_dict (VDict d) = GDScriptClass.from_dict (VDict d').
Proof.
  intros H. unfold GDScriptClass.from_dict, get_str, getitem.
  rewrite !(H "description"), !(H "name"), !(H "extends_class"),
    !(H "path"), !(H "methods"), !(H "static_functions"), !(H "members"),
    !(H "signals"), !(H "constants"); try reflexivity;
    unfold class_keys; simpl; tauto.
Qed.

Lemma from_dict_reads_nine_keys_witness :
  GDScriptClass.from_dict record_foo_reordered
  = GDScriptClass.from_dict record_foo.
Proof.
  apply (from_dict_reads_nine_keys (dict_of record_foo_reordered)
           (dict_of record_foo)).
  intros key Hkey. unfold class_keys in Hkey. simpl in Hkey.
  decompose [or] Hkey; subst; try reflexivity; contradiction.
Defined.

Lemma get_members_outputs (data : value) (members : list Member.t) :
  _get_members data = Ok members ->
  Forall (fun m => PyStr.startswith (Member.name m) "_" = false
                   /\ edge_free PyStr.space_or_newline (Member.description m))
    members.
Proof.
  unfold _get_members. intros H. bind_ok H.
  eapply Forall_impl; [|exact (for_each_outputs _ _ _ H)].
  intros m (entry & _ & Hm). unfold _get_members_body in Hm.
  bind_ok Hm. destruct (PyStr.startswith a0 "_") eqn:Hu; [discriminate|].
  bind_ok Hm. destruct (get_metadata a1) as [[text tags] category].
  cbv beta iota in Hm. do 6 bind_ok Hm. injection Hm as <-.
  cbn [Member.name Member.description].
  split; [assumption|apply strip_with_edge_free].
Qed.

(** The parts of a class that [from_dict] has built. *)
Lemma from_dict_parts (data : value) (c : GDScriptClass.t) :
  GDScriptClass.from_dict data = Ok c ->
  exists raw_methods raw_statics raw_members methods statics text,
    getitem data "methods" = Ok raw_methods
    /\ _get_functions raw_methods false = Ok methods
    /\ getitem data "static_functions" = Ok raw_statics
    /\ _get_functions raw_statics true = Ok statics
    /\ GDScriptClass.functions c = methods ++ statics
    /\ getitem data "members" = Ok raw_members
    /\ _get_members raw_members = Ok (GDScriptClass.members c)
    /\ GDScriptClass.description c = PyStr.strip_space_newline text.
Proof.
  unfold GDScriptClass.from_dict. intros H.
  bind_ok H. destruct (get_metadata a) as [[text tags] category].
  cbv beta iota in H.
  bind_ok H. bind_ok H. bind_ok H.
  destruct (getitem data "methods") as [raw_methods|] eqn:Hm;
    [|discriminate H].
  cbn [bind] in H.
  destruct (_get_functions raw_methods false) as [methods|] eqn:Hfm;
    [|discriminate H].
  cbn [bind] in H.
  destruct (getitem data "static_functions") as [raw_statics|] eqn:Hs;
    [|discriminate H].
  cbn [bind] in H.
  destruct (_get_functions raw_statics true) as [statics|] eqn:Hfs;
    [|discriminate H].
  cbn [bind] in H.
  destruct (getitem data "members") as [raw_members|] eqn:Hmem;
    [|discriminate H].
  cbn [bind] in H.
  destruct (_get_members raw_members) as [members|] eqn:Hgm;
    [|discriminate H].
  cbn [bind] in H.
  do 4 bind_ok H. injection H as <-.
  exists raw_methods, raw_statics, raw_members, methods, statics, text.
  cbn [GDScriptClass.functions GDScriptClass.members
       GDScriptClass.description].
  repeat apply conj; try reflexivity; assumption.
Qed.

(** X10. In every class that [from_dict] builds, the functions are the
    instance methods of [methods], in order, followed by the static
    functions of [static_functions], in order: no Function before the
    boundary has kind STATIC and every Function after it has. *)
Theorem from_dict_methods_then_statics (data : value) (c : GDScriptClass.t) :
  GDScriptClass.from_dict data = Ok c ->
  exists raw_methods raw_statics methods statics,
    getitem data "methods" = Ok raw_methods
    /\ _get_functions raw_methods false = Ok methods
    /\ getitem data "static_functions" = Ok raw_statics
    /\ _get_functions raw_statics true = Ok statics
    /\ GDScriptClass.functions c = methods ++ statics
    /\ Forall (fun f => Function.kind f <> STATIC) methods
    /\ Forall (fun f => Function.kind f = STATIC) statics.
Proof.
  intros H.
  destruct (from_dict_parts _ _ H)
    as (rm & rs & _ & methods & statics & _
        & Hm & Hfm & Hs & Hfs & Hf & _).
  exists rm, rs, methods, statics.
  repeat apply conj; try assumption.
  - eapply Forall_impl; [|exact (get_functions_outputs _ _ _ Hfm)].
    intros f (entry & Hb).
    destruct (get_functions_body_some _ _ _ Hb) as (_ & _ & _ & -> & _).
    destruct (PyStr.contains (Function.tags f) "virtual"); discriminate.
  - eapply Forall_impl; [|exact (get_functions_outputs _ _ _ Hfs)].
    intros f (entry & Hb).
    now destruct (get_functions_body_some _ _ _ Hb) as (_ & _ & _ & -> & _).
Qed.

Lemma from_dict_methods_then_statics_witness :
  exists c,
    GDScriptClass.from_dict record_with_statics = Ok c
    /\ map Function.name (GDScriptClass.functions c)
       = ["bar"; "_init"; "_on_hit"; "make"; "null_or_null"; "make"]
    /\ map Function.kind (GDScriptClass.functions c)
       = [METHOD; VIRTUAL; VIRTUAL; VIRTUAL; METHOD; STATIC].
Proof.
  destruct (GDScriptClass.from_dict record_with_statics) as [c|] eqn:E;
    [|discriminate E].
  destruct (from_dict_methods_then_statics _ _ E)
    as (rm & rs & methods & statics & _ & _ & _ & _ & Hf & _).
  exists c. split; [reflexivity|].
  vm_compute in E. injection E as <-. now split.
Defined.

(** X11. Every description stored in a built class has been stripped: the
    description of the class, of each of its functions and of each of its
    members neither starts nor ends with a space or a newline. *)
Theorem from_dict_descriptions_stripped (data : value)
  (c : GDScriptClass.t) :
  GDScriptClass.from_dict data = Ok c ->
  edge_free PyStr.space_or_newline (GDScriptClass.description c)
  /\ Forall (fun f => edge_free PyStr.space_or_newline
                        (Function.description f))
       (GDScriptClass.functions c)
  /\ Forall (fun m => edge_free PyStr.space_or_newline
                        (Member.description m))
       (GDScriptClass.members c).
Proof.
  intros H.
  destruct (from_dict_parts _ _ H)
    as (rm & rs & rmem & methods & statics & text
        & _ & Hfm & _ & Hfs & Hf & _ & Hmem & Hd).
  split; [rewrite Hd; apply strip_with_edge_free|]. split.
  - rewrite Hf. apply Forall_app. split.
    + eapply Forall_impl; [|exact (get_functions_outputs _ _ _ Hfm)].
      intros f (entry & Hb).
      destruct (get_functions_body_some _ _ _ Hb)
        as (_ & _ & _ & _ & _ & _ & <-).
      apply strip_with_edge_free.
    + eapply Forall_impl; [|exact (get_functions_outputs _ _ _ Hfs)].
      intros f (entry & Hb).
      destruct (get_functions_body_some _ _ _ Hb)
        as (_ & _ & _ & _ & _ & _ & <-).
      apply strip_with_edge_free.
  - eapply Forall_impl; [|exact (get_members_outputs _ _ Hmem)].
    now intros m [_ Hm].
Qed.

Lemma from_dict_descriptions_stripped_witness :
  exists c,
    GDScriptClass.from_dict record_with_statics = Ok c
    /\ GDScriptClass.description c = "Helpers."
    /\ edge_free PyStr.space_or_newline (GDScriptClass.description c).
Proof.
  destruct (GDScriptClass.from_dict record_with_statics) as [c|] eqn:E;
    [|discriminate E].
  destruct (from_dict_descriptions_stripped _ _ E) as (Hd & _).
  exists c. split; [reflexivity|]. split; [|exact Hd].
  vm_compute in E. now injection E as <-.
Defined.

(** ** GDScriptClasses.from_dict_list and extends_as_string *)

Lemma has_key_name (d : list (string * value)) :
  has_key (VDict d) "name" = Ok (has_name d).
Proof. reflexivity. Qed.

(** X12. [from_dict_list] skips the records without a [name] without
    reading anything else of them, and builds every other record, in order:
    its result is that of building all the named records, so one named
    record that fails makes the whole list fail, with the error of the
    first such record, while a record without a name never does. *)
Theorem from_dict_list_named (dicts : list (list (string * value))) :
  GDScriptClasses.from_dict_list (map VDict dicts)
  = mapM GDScriptClass.from_dict (map VDict (filter has_name dicts)).
Proof.
  unfold GDScriptClasses.from_dict_list.
  induction dicts as [|d dicts IH]; [reflexivity|].
  cbn [map for_each filter]. rewrite has_key_name. cbn [bind].
  destruct (has_name d); cbn [map mapM bind].
  - destruct (GDScriptClass.from_dict (VDict d)); [|reflexivity].
    cbn [bind]. rewrite IH.
    now destruct (mapM GDScriptClass.from_dict
                    (map VDict (filter has_name dicts))).
  - rewrite IH.
    now destruct (mapM GDScriptClass.from_dict
                    (map VDict (filter has_name dicts))).
Qed.

Lemma mapM_as_str (parts : list value) (names : list string) :
  mapM as_str parts = Ok names <-> parts = map VStr names.
Proof.
  rewrite mapM_Forall2. split; intros H.
  - induction H as [|part name parts names Hp _ IH]; [reflexivity|].
    destruct part; try discriminate Hp. injection Hp as ->.
    simpl. now rewrite IH.
  - subst parts. induction names as [|n names IH]; constructor;
      [reflexivity|assumption].
Qed.

(** X13. [extends_as_string] succeeds exactly when [extends] can be
    iterated and gives strings only, and then joins them with [" < "]: a
    list of names gives the chain, the empty list the empty string, and a
    plain string, which is what the annotation of the field asks for, its
    characters joined one by one; anything else raises. *)
Theorem extends_as_string_joins (self : GDScriptClass.t) :
  (forall s,
      GDScriptClass.extends_as_string self = Ok s <->
      exists names,
        iterate (GDScriptClass.extends self) = Ok (map VStr names)
        /\ s = PyStr.join " < " names)
  /\ (forall names,
         GDScriptClass.extends self = VList (map VStr names) ->
         GDScriptClass.extends_as_string self = Ok (PyStr.join " < " names))
  /\ (forall t,
         GDScriptClass.extends self = VStr t ->
         GDScriptClass.extends_as_string self
         = Ok (PyStr.join " < " (chars t)))
  /\ (forall e,
         GDScriptClass.extends_as_string self = Err e -> e = TypeError).
Proof.
  assert (Hiff : forall s,
             GDScriptClass.extends_as_string self = Ok s <->
             exists names,
               iterate (GDScriptClass.extends self) = Ok (map VStr names)
               /\ s = PyStr.join " < " names).
  { intros s. unfold GDScriptClass.extends_as_string. split.
    - intros H. bind_ok H.
      destruct (mapM as_str a) as [names|] eqn:Hn; [|discriminate H].
      cbn [bind] in H. injection H as <-.
      exists names. apply mapM_as_str in Hn. now subst a.
    - intros (names & -> & ->). cbn [bind].
      now rewrite (proj2 (mapM_as_str _ names) eq_refl). }
  split; [exact Hiff|]. split; [|split].
  - intros names Hl. apply Hiff. exists names. now rewrite Hl.
  - intros t Ht. apply Hiff. exists (chars t). rewrite Ht.
    now split.
  - intros e. unfold GDScriptClass.extends_as_string. intros H.
    bind_err H.
    + bind_err H; [discriminate|].
      apply mapM_err_inv, Exists_exists in E0 as (part & _ & Hp).
      destruct part; try discriminate Hp; now injection Hp.
    + destruct (GDScriptClass.extends self); try discriminate E;
        now injection E.
Qed.

(** ** More on the renderer *)

Section RendererMore.
Context {MM : make_markdown} {HG : hugo}.

Lemma as_markdown_result (gdscript : GDScriptClass.t)
  (arguments : Namespace) :
  (forall doc, as_markdown gdscript arguments = Ok doc ->
               title doc = GDScriptClass.name gdscript
               /\ exists s, GDScriptClass.extends_as_string gdscript = Ok s)
  /\ (forall e, as_markdown gdscript arguments = Err e <->
                GDScriptClass.extends_as_string gdscript = Err e).
Proof.
  unfold as_markdown.
  destruct (GDScriptClass.extends_as_string gdscript) as [s|e0];
    cbn [bind]; split.
  - intros doc [= <-]. split; [reflexivity|now exists s].
  - intros e. split; discriminate.
  - discriminate.
  - intros e. split; intros [= <-]; reflexivity.
Qed.

(** X14. [convert_to_markdown] gives one document per class, in the order
    of the classes, each titled with the name of its class (without the
    abstract marker, which only the heading carries); it succeeds exactly
    when the parent chain of every class can be joined, and otherwise
    fails, without any document, with the error of a class whose chain
    cannot. *)
Theorem convert_to_markdown_documents (classes : GDScriptClasses.t)
  (arguments : Namespace) :
  (forall docs,
      convert_to_markdown classes arguments = Ok docs ->
      map title docs = map GDScriptClass.name classes)
  /\ ((exists docs, convert_to_markdown classes arguments = Ok docs) <->
      Forall (fun c => exists s, GDScriptClass.extends_as_string c = Ok s)
        classes)
  /\ (forall e,
         convert_to_markdown classes arguments = Err e ->
         Exists (fun c => GDScriptClass.extends_as_string c = Err e) classes).
Proof.
  unfold convert_to_markdown. split; [|split].
  - intros docs H. apply mapM_Forall2 in H.
    induction H as [|c doc classes' docs' Hc _ IH]; [reflexivity|].
    simpl. rewrite IH.
    now rewrite (proj1 (proj1 (as_markdown_result c arguments) doc Hc)).
  - split.
    + intros (docs & H). apply mapM_ok_inv in H.
      eapply Forall_impl; [|exact H]. intros c (doc & Hc).
      exact (proj2 (proj1 (as_markdown_result c arguments) doc Hc)).
    + intros H. induction H as [|c classes' (s & Hs) _ (docs & IH)].
      * now exists [].
      * cbn [mapM]. unfold as_markdown at 1. rewrite Hs. cbn [bind].
        rewrite IH. cbn [bind]. now eexists.
  - intros e H. apply mapM_err_inv in H.
    eapply Exists_impl; [|exact H]. intros c Hc.
    now apply (proj2 (as_markdown_result c arguments)).
Qed.

Lemma fold_left_concat {A : Type} (block : A -> list string) (xs : list A)
  (acc : list string) :
  fold_left (fun markdown x => markdown ++ block x) xs acc
  = acc ++ flat_map block xs.
Proof.
  revert acc; induction xs as [|x xs IH]; intros acc; cbn [fold_left flat_map].
  - now rewrite app_nil_r.
  - now rewrite IH, app_assoc.
Qed.

Lemma flat_map_nil_iff {A : Type} (block : A -> list string) (xs : list A) :
  (forall x, block x <> []) -> (flat_map block xs = [] <-> xs = []).
Proof.
  intros Hb. split; [|now intros ->].
  destruct xs as [|x xs]; [reflexivity|]. cbn [flat_map]. intros H.
  apply app_eq_nil in H as [H _]. now destruct (Hb x).
Qed.

Lemma write_function_not_nil (output_format : OutputFormats)
  (function : Function.t) :
  write_function output_format function <> [].
Proof.
  unfold write_function. cbn [app].
  destruct (nonempty (Function.description function)); intros H;
    repeat (apply app_eq_nil in H as [H ?]); discriminate.
Qed.

Lemma write_member_not_nil (output_format : OutputFormats)
  (member : Member.t) :
  write_member output_format member <> [].
Proof.
  unfold write_member. intros H. apply app_eq_nil in H as [_ H].
  discriminate.
Qed.

Lemma write_enum_not_nil (output_format : OutputFormats)
  (enum : Enumeration.t) :
  write_enum output_format enum <> [].
Proof.
  unfold write_enum. intros H. apply app_eq_nil in H as [_ H].
  discriminate.
Qed.

(** X15. The three loops that write the descriptions put the blocks of the
    entries one after the other: the lines of a list made of two parts are
    the lines of the first part followed by those of the second, and, as no
    block is empty, the lines are empty exactly when the list of functions,
    members or enumerations is. *)
Theorem descriptions_concatenate (output_format : OutputFormats) :
  (forall fs gs,
      write_functions (fs ++ gs) output_format
      = write_functions fs output_format ++ write_functions gs output_format)
  /\ (forall ms ns,
         write_members (ms ++ ns) output_format
         = write_members ms output_format ++ write_members ns output_format)
  /\ (forall es fs,
         write_enums (es ++ fs) output_format
         = write_enums es output_format ++ write_enums fs output_format)
  /\ (forall fs, write_functions fs output_format = [] <-> fs = [])
  /\ (forall ms, write_members ms output_format = [] <-> ms = [])
  /\ (forall es, write_enums es output_format = [] <-> es = []).
Proof.
  unfold write_functions, write_members, write_enums.
  repeat split; intros; rewrite ?fold_left_concat in *; cbn [app] in *;
    try (rewrite flat_map_app; reflexivity).
  - eapply flat_map_nil_iff; [|eassumption]. apply write_function_not_nil.
  - now subst.
  - eapply flat_map_nil_iff; [|eassumption]. apply write_member_not_nil.
  - now subst.
  - eapply flat_map_nil_iff; [|eassumption]. apply write_enum_not_nil.
  - now subst.
Qed.

End RendererMore.

Lemma from_dict_list_named_witness :
  GDScriptClasses.from_dict_list
    [VDict []; record_foo; VDict [("path", VInt 3)]]
  = Ok [class_foo]
  /\ GDScriptClasses.from_dict_list [record_foo; record_without_path]
     = Err (KeyError "path").
Proof.
  split.
  - exact (eq_trans
             (from_dict_list_named
                [[]; dict_of record_foo; [("path", VInt 3)]])
             eq_refl).
  - exact (eq_trans
             (from_dict_list_named
                [dict_of record_foo; dict_of record_without_path])
             eq_refl).
Defined.

Lemma extends_as_string_joins_witness :
  GDScriptClass.extends_as_string class_extends_str = Ok "N < o < d < e"
  /\ GDScriptClass.extends_as_string class_foo = Ok "Node"
  /\ GDScriptClass.extends_as_string class_abstract = Ok "".
Proof.
  split; [|split].
  - exact (proj1 (proj2 (proj2 (extends_as_string_joins class_extends_str)))
             "Node" eq_refl).
  - exact (proj1 (proj2 (extends_as_string_joins class_foo))
             ["Node"] eq_refl).
  - exact (proj1 (proj2 (extends_as_string_joins class_abstract))
             [] eq_refl).
Defined.

Lemma convert_to_markdown_documents_witness :
  (exists docs,
      @convert_to_markdown plain_markdown plain_hugo
        [class_foo; class_abstract] (mkNamespace HUGO [])
      = Ok docs
      /\ map title docs = ["Foo"; "Base"])
  /\ @convert_to_markdown plain_markdown plain_hugo
       [class_foo; class_extends_int] (mkNamespace MARDKOWN [])
     = Err TypeError.
Proof.
  split.
  - destruct (@convert_to_markdown plain_markdown plain_hugo
                [class_foo; class_abstract] (mkNamespace HUGO []))
      as [docs|] eqn:E; [|discriminate E].
    exists docs. split; [reflexivity|].
    exact (proj1 (@convert_to_markdown_documents plain_markdown plain_hugo
                    [class_foo; class_abstract] (mkNamespace HUGO []))
             docs E).
  - reflexivity.
Defined.
Lemma get_signals_all_witness :
  _get_signals (VList sample_signals)
  = Ok [ Signal.mk (VStr "signal hit(by)") (VStr "hit")
           (VStr ("Emitted." ++ PyStr.nl ++ "tags: a"))
           (VList [VStr "by"]);
         Signal.mk (VStr "signal missed") (VStr "missed") VNull (VList []) ]
  /\ exists signals,
       _get_signals (VList sample_signals) = Ok signals
       /\ length signals = 2.
Proof.
  destruct (get_signals_all sample_signals) as [Hiff Hlength].
  assert (E : _get_signals (VList sample_signals)
              = Ok [ Signal.mk (VStr "signal hit(by)") (VStr "hit")
                       (VStr ("Emitted." ++ PyStr.nl ++ "tags: a"))
                       (VList [VStr "by"]);
                     Signal.mk (VStr "signal missed") (VStr "missed") VNull
                       (VList []) ]).
  { apply Hiff. unfold sample_signals. repeat constructor. }
  split; [exact E|].
  eexists. split; [exact E|]. exact (Hlength _ E).
Defined.

(** X16. [_get_arguments] checks nothing either: its result is a list of
    Arguments exactly when, entry by entry and in order, each Argument holds
    the values under [name] and [type] of its entry, as they are; there are
    as many Arguments as entries. *)
Theorem get_arguments_all (entries : list value) :
  (forall arguments,
      _get_arguments (VList entries) = Ok arguments <->
      Forall2 (fun entry a =>
                 getitem entry "name" = Ok (Argument.name a)
                 /\ getitem entry "type" = Ok (Argument.type a))
        entries arguments)
  /\ (forall arguments,
         _get_arguments (VList entries) = Ok arguments ->
         length arguments = length entries).
Proof.
  assert (Hiff : forall arguments,
             _get_arguments (VList entries) = Ok arguments <->
             Forall2 (fun entry a =>
                        getitem entry "name" = Ok (Argument.name a)
                        /\ getitem entry "type" = Ok (Argument.type a))
               entries arguments).
  { intros arguments. unfold _get_arguments. cbn [iterate bind].
    rewrite mapM_Forall2. split; intros H;
      (eapply Forall2_impl; [|exact H]); intros entry a Ha; cbv beta in *.
    - bind_ok Ha. bind_ok Ha. injection Ha as <-. now split.
    - destruct Ha as (-> & ->). now destruct a. }
  split; [exact Hiff|].
  intros arguments H. apply Hiff in H. symmetry.
  exact (Forall2_length H).
Qed.

Lemma get_arguments_all_witness :
  _get_arguments (VList [argument_value; argument_untyped])
  = Ok [Argument.mk (VStr "value") (VStr "int");
        Argument.mk (VStr "other") VNull].
Proof.
  apply (proj1 (get_arguments_all [argument_value; argument_untyped])).
  repeat constructor.
Defined.
